(** * herd-ticket-linear: the Linear ticket adapter

    A shallow embedding of [herd_ticket_linear/adapter.py] (class
    [LinearTicketAdapter]) and the properties of its specification.

    Conventions of the embedding
    - Python values that travel through JSON ([Any] in the source) are
      values of [json]; a Python [dict] is a [gmap string json], [None]
      is [JNull].  Numbers are integers: float literals are outside the
      model.
    - A raised exception is the [Raise] case of [res]; the exception
      classes the adapter can meet are the constructors of [exn].
    - The network is a parameter: [remote] answers every request from the
      history of the requests sent before it.  Operations that talk to the
      network live in the state-and-error monad [M], whose state is the
      list of requests sent so far.
    - Builtins of Python that the repository does not implement
      ([datetime.fromisoformat], [str] of a non-string object) are
      parameters of the sections that use them. *)

From Stdlib Require Import Ascii String.
From stdpp Require Import gmap strings list fin_maps pretty.

#[local] Set Warnings "-register-all".
#[local] Open Scope string_scope.
#[local] Open Scope Z_scope.

(** ** Python values *)

Inductive json :=
| JNull
| JBool (b : bool)
| JInt (z : Z)
| JStr (s : string)
| JList (l : list json)
| JObj (m : gmap string json).

(** The exception classes met by the adapter.  [Exception] and [ValueError]
    carry the message given at the [raise]; the three interpreter errors
    carry none. *)
Inductive exn :=
| Exception (msg : string)
| ValueError (msg : string)
| TypeError
| AttributeError
| KeyError (key : string).

Inductive res (A : Type) :=
| Ok (a : A)
| Raise (e : exn).

Arguments Ok {A} a.
Arguments Raise {A} e.

Definition rbind {A B} (r : res A) (k : A -> res B) : res B :=
  match r with
  | Ok a => k a
  | Raise e => Raise e
  end.

Declare Scope res_scope.
Delimit Scope res_scope with res.
Notation "'let?' x := r 'in' k" := (rbind r (fun x => k))
  (at level 10, x name, r at level 100, k at level 200) : res_scope.
#[local] Open Scope res_scope.

(** [mapR f l]: a list comprehension [[f(x) for x in l]] whose body may
    raise; the first exception, in order, escapes. *)
Fixpoint mapR {A B} (f : A -> res B) (l : list A) : res (list B) :=
  match l with
  | [] => Ok []
  | x :: l' =>
      let? y := f x in
      let? ys := mapR f l' in
      Ok (y :: ys)
  end.

(** Truth value of a Python object, as tested by [if v:], [not v] and
    [a or b]. *)
Definition truthy (v : json) : bool :=
  match v with
  | JNull => false
  | JBool b => b
  | JInt z => negb (z =? 0)
  | JStr s => negb (String.eqb s "")
  | JList l => match l with [] => false | _ :: _ => true end
  | JObj m => negb (Nat.eqb (size m) 0)
  end.

(** [v.get(k, d)]: only a dict has the method. *)
Definition py_get (v : json) (k : string) (d : json) : res json :=
  match v with
  | JObj m => Ok (default d (m !! k))
  | _ => Raise AttributeError
  end.

(** [v == s] for a string [s]: only an equal string is equal to it. *)
Definition py_eq_str (v : json) (s : string) : bool :=
  match v with
  | JStr t => String.eqb t s
  | _ => false
  end.

Fixpoint chars (s : string) : list json :=
  match s with
  | EmptyString => []
  | String c s' => JStr (String c EmptyString) :: chars s'
  end.

(** [for x in v]: a list yields its elements, a string its characters, a
    dict its keys; the other values are not iterable. *)
Definition py_iter (v : json) : res (list json) :=
  match v with
  | JList l => Ok l
  | JStr s => Ok (chars s)
  | JObj m => Ok (JStr <$> (map_to_list m).*1)
  | _ => Raise TypeError
  end.

(** [sep.join(parts)] on strings. *)
Fixpoint join (sep : string) (parts : list string) : string :=
  match parts with
  | [] => ""
  | [p] => p
  | p :: ps => p ++ sep ++ join sep ps
  end.

(** [s.replace(c, r)] for a pattern [c] of one character. *)
Fixpoint replace (c : ascii) (r : string) (s : string) : string :=
  match s with
  | EmptyString => EmptyString
  | String a s' =>
      if Ascii.eqb a c then r ++ replace c r s'
      else String a (replace c r s')
  end.

(** [needle in s] on strings: [needle] occurs in [s]. *)
Fixpoint contains (needle s : string) : bool :=
  String.prefix needle s ||
  match s with
  | EmptyString => false
  | String _ s' => contains needle s'
  end.

(** ** The adapter object *)

Record LinearTicketAdapter := {
  api_key : string;
  team_id : string;
  state_mapping : gmap string string
}.

(** [__init__]: [self.state_mapping = state_mapping or {}]. *)
Definition init (api_key team_id : string)
    (state_mapping : option (gmap string string)) : LinearTicketAdapter :=
  {| api_key := api_key;
     team_id := team_id;
     state_mapping :=
       match state_mapping with
       | Some m => if Nat.eqb (size m) 0 then ∅ else m
       | None => ∅
       end |}.

Definition LINEAR_API_URL : string := "https://api.linear.app/graphql".

(** ** Status resolution: [_resolve_state_id] *)

(** The character class [[0-9a-f-]]. *)
Definition uuid_char (c : ascii) : bool :=
  let n := nat_of_ascii c in
  ((48 <=? n) && (n <=? 57))%nat
  || ((97 <=? n) && (n <=? 102))%nat
  || (n =? 45)%nat.

(** [class{n}]: exactly [n] characters of the class, then the rest. *)
Fixpoint match_uuid_chars (n : nat) (s : string) : option string :=
  match n with
  | O => Some s
  | S n' =>
      match s with
      | String c s' => if uuid_char c then match_uuid_chars n' s' else None
      | EmptyString => None
      end
  end.

Definition newline : string := String (ascii_of_nat 10) EmptyString.

(** [$] outside MULTILINE mode: the end of the string, or the position
    just before a newline that ends the string. *)
Definition at_dollar (rest : string) : bool :=
  String.eqb rest "" || String.eqb rest newline.

(** [re.match(r"^[0-9a-f-]{36}$", status)] as a truth value. *)
Definition re_match_uuid (status : string) : bool :=
  match match_uuid_chars 36 status with
  | Some rest => at_dollar rest
  | None => false
  end.

Definition _resolve_state_id (self : LinearTicketAdapter) (status : string)
    : res string :=
  if re_match_uuid status then Ok status
  else
    match state_mapping self !! status with
    | Some state => Ok state
    | None =>
        Raise (ValueError ("Status '" ++ status
                 ++ "' not found in state_mapping and is not a UUID"))
    end.

(** What the comment of [_resolve_state_id] calls a UUID, in the words of
    the specification: 36 characters, each a hex digit or a hyphen. *)
Definition uuid_shaped (status : string) : Prop :=
  String.length status = 36%nat /\
  Forall (fun c => uuid_char c = true) (list_ascii_of_string status).

Definition uuid_nl : string :=
  "77631f63-b27b-45a5-8b04-f9f82b4facde" ++ newline.

(** ** The network *)

(** A request as built by [urllib.request.Request]: [data] is the payload
    before [json.dumps]. *)
Record request := {
  url : string;
  data : json;
  headers : list (string * string)
}.

(** What [urlopen] and [json.loads(resp.read())] can come to: a parsed
    body, a body that is no JSON ([json.loads] raises a [ValueError]), an
    [HTTPError] with its code and, when [e.fp] is set, its body, or a
    [URLError] with its reason. *)
Inductive http_outcome :=
| HttpOk (body : json)
| HttpNotJson (msg : string)
| HTTPError (code : Z) (fp : option string)
| URLError (reason : string).

(** The state-and-error monad of the operations: the state is the list of
    the requests sent so far, oldest first. *)
Definition M (A : Type) : Type := list request -> res A * list request.

Definition ret {A} (a : A) : M A := fun sent => (Ok a, sent).

Definition raise {A} (e : exn) : M A := fun sent => (Raise e, sent).

Definition lift {A} (r : res A) : M A := fun sent => (r, sent).

Definition bind {A B} (m : M A) (k : A -> M B) : M B :=
  fun sent =>
    match m sent with
    | (Ok a, sent') => k a sent'
    | (Raise e, sent') => (Raise e, sent')
    end.

Declare Scope M_scope.
Delimit Scope M_scope with M.
Notation "'let!' x := m 'in' k" := (bind m (fun x => k))
  (at level 10, x name, m at level 100, k at level 200) : M_scope.
#[local] Open Scope M_scope.

(** ** The GraphQL documents *)

(** [get_query]: the search document of get (adapter.py lines 165-201); list_tickets sends the same text. *)
Definition get_query : string := "
        query IssueSearch($query: String!) {
          issueSearch(query: $query) {
            nodes {
              id
              identifier
              title
              description
              createdAt
              updatedAt
              state {
                id
                name
              }
              priority
              team {
                id
                name
              }
              project {
                id
                name
              }
              assignee {
                id
                name
              }
              labels {
                nodes {
                  id
                  name
                }
              }
            }
          }
        }
        ".

(** [create_mutation]: the creation mutation of create (lines 241-256). *)
Definition create_mutation : string := "
        mutation CreateIssue($input: IssueCreateInput!) {
          issueCreate(input: $input) {
            success
            issue {
              id
              identifier
              title
              state {
                id
                name
              }
            }
          }
        }
        ".

(** [update_mutation]: the update mutation of update (lines 296-306). *)
Definition update_mutation : string := "
        mutation UpdateIssue($id: String!, $input: IssueUpdateInput!) {
          issueUpdate(id: $id, input: $input) {
            success
            issue {
              id
              identifier
            }
          }
        }
        ".

(** [update_query]: the identifier search of update (lines 327-336); add_comment sends the same text. *)
Definition update_query : string := "
        query IssueSearch($query: String!) {
          issueSearch(query: $query) {
            nodes {
              id
              identifier
            }
          }
        }
        ".

(** [add_comment_mutation]: the comment mutation of add_comment (lines 448-457). *)
Definition add_comment_mutation : string := "
        mutation CreateComment($input: CommentCreateInput!) {
          commentCreate(input: $input) {
            success
            comment {
              id
            }
          }
        }
        ".

Definition list_tickets_graphql_query : string := get_query.

Definition add_comment_query : string := update_query.

(** ** The record types of [herd_core.types] *)

Inductive TicketPriority := NONE | LOW | NORMAL | HIGH | URGENT.

(** [TicketRecord]: the fields are the keyword arguments of the constructor
    call in [_parse_ticket].  The constructor stores what it is given, so a
    field read from the issue holds a [json] value ([JNull] for [None]). *)
Module TicketRecord.
Record t (datetime : Type) := mk {
  id : json;
  title : json;
  description : json;
  status : json;
  priority : TicketPriority;
  project : json;
  assignee : json;
  labels : list json;
  created_at : option datetime;
  modified_at : option datetime
}.
Arguments mk {datetime}.
Arguments id {datetime}.
Arguments title {datetime}.
Arguments description {datetime}.
Arguments status {datetime}.
Arguments priority {datetime}.
Arguments project {datetime}.
Arguments assignee {datetime}.
Arguments labels {datetime}.
Arguments created_at {datetime}.
Arguments modified_at {datetime}.
End TicketRecord.

Module TransitionResult.
Record t := mk {
  ticket_id : string;
  previous_status : json;
  new_status : string;
  event_type : string;
  elapsed_minutes : option Z
}.
End TransitionResult.

(** ** Helpers shared by the operations *)

(** [key in v]: a key of a dict, an element of a list, a substring of a
    string. *)
Definition py_in (key : string) (v : json) : res bool :=
  match v with
  | JObj m => Ok (bool_decide (is_Some (m !! key)))
  | JList l => Ok (existsb (fun x => py_eq_str x key) l)
  | JStr s => Ok (contains key s)
  | _ => Raise TypeError
  end.

(** [v[key]] for a string key: only a dict can be indexed by it. *)
Definition py_getitem (v : json) (key : string) : res json :=
  match v with
  | JObj m =>
      match m !! key with
      | Some x => Ok x
      | None => Raise (KeyError key)
      end
  | _ => Raise TypeError
  end.

(** An item handed to [str.join] must be a string. *)
Definition as_str (v : json) : res string :=
  match v with
  | JStr s => Ok s
  | _ => Raise TypeError
  end.

(** [result.get("data", {}).get("issueSearch", {}).get("nodes", [])], the
    expression of [get], [update], [add_comment] and [list_tickets]. *)
Definition search_nodes (result : json) : res json :=
  let? d := py_get result "data" (JObj ∅) in
  let? s := py_get d "issueSearch" (JObj ∅) in
  py_get s "nodes" (JList []).

(** The priority table of [_parse_ticket]. *)
Definition priority_map : gmap Z TicketPriority :=
  {[ 0 := NONE; 1 := URGENT; 2 := HIGH; 3 := NORMAL; 4 := LOW ]}.

(** [priority_map.get(v, TicketPriority.NONE)]: a key is found by hash and
    equality, so [True] finds 1 and [False] finds 0; a list or a dict is
    not hashable. *)
Definition priority_map_get (v : json) : res TicketPriority :=
  match v with
  | JInt z => Ok (default NONE (priority_map !! z))
  | JBool b => Ok (default NONE (priority_map !! (if b then 1 else 0)))
  | JNull | JStr _ => Ok NONE
  | JList _ | JObj _ => Raise TypeError
  end.

(** The body of the loop of [create] over [kwargs.items()]:
    [if value is not None: issue_input[key] = value]. *)
Definition add_kwarg (key : string) (value : json)
    (issue_input : gmap string json) : gmap string json :=
  match value with
  | JNull => issue_input
  | _ => <[key := value]> issue_input
  end.

(** The creation input of [create] (adapter.py lines 258-275). *)
Definition create_issue_input (self : LinearTicketAdapter) (title : string)
    (description team_id' project_id : option string) (priority : option Z)
    (labels : option (list string)) (kwargs : gmap string json)
    : gmap string json :=
  let issue_input : gmap string json :=
    {[ "teamId" :=
         JStr (match team_id' with
               | Some t => if truthy (JStr t) then t else team_id self
               | None => team_id self
               end);
       "title" := JStr title ]} in
  let issue_input :=
    match description with
    | Some d =>
        if truthy (JStr d) then <["description" := JStr d]> issue_input
        else issue_input
    | None => issue_input
    end in
  let issue_input :=
    match priority with
    | Some p => <["priority" := JInt p]> issue_input
    | None => issue_input
    end in
  let issue_input :=
    match project_id with
    | Some p =>
        if truthy (JStr p) then <["projectId" := JStr p]> issue_input
        else issue_input
    | None => issue_input
    end in
  let issue_input :=
    match labels with
    | Some l =>
        if truthy (JList (JStr <$> l))
        then <["labelIds" := JList (JStr <$> l)]> issue_input
        else issue_input
    | None => issue_input
    end in
  map_fold add_kwarg issue_input kwargs.

(** One [if caller in fields: issue_input[remote] = fields[caller]]. *)
Definition copy_field (fields : gmap string json) (caller remote : string)
    (issue_input : gmap string json) : gmap string json :=
  match fields !! caller with
  | Some v => <[remote := v]> issue_input
  | None => issue_input
  end.

(** The update input of [update] (adapter.py lines 308-324). *)
Definition update_issue_input (fields : gmap string json)
    : gmap string json :=
  let issue_input : gmap string json := ∅ in
  let issue_input := copy_field fields "title" "title" issue_input in
  let issue_input := copy_field fields "description" "description" issue_input in
  let issue_input := copy_field fields "priority" "priority" issue_input in
  let issue_input := copy_field fields "labels" "labelIds" issue_input in
  let issue_input := copy_field fields "state_id" "stateId" issue_input in
  let issue_input := copy_field fields "assignee_id" "assigneeId" issue_input in
  let issue_input := copy_field fields "project_id" "projectId" issue_input in
  issue_input.

(** The loop of [update] and [add_comment] over the search nodes: the [id]
    of the first node whose identifier is [ticket_id], [None] without one. *)
Fixpoint find_issue_id (ticket_id : string) (nodes : list json)
    : res json :=
  match nodes with
  | [] => Ok JNull
  | node :: nodes' =>
      let? ident := py_get node "identifier" JNull in
      if py_eq_str ident ticket_id then py_get node "id" JNull
      else find_issue_id ticket_id nodes'
  end.

(** One [if key in filters: query_parts.append(...)] of [list_tickets]. *)
Definition append_filter (filters : gmap string string) (key prefix : string)
    (query_parts : list string) : list string :=
  match filters !! key with
  | Some v => (query_parts ++ [(prefix ++ v)%string])%list
  | None => query_parts
  end.

(** The search term of [list_tickets] (adapter.py lines 482-494); filter
    values are strings. *)
Definition search_query (filters : gmap string string) : string :=
  let query_parts : list string := [] in
  let query_parts := append_filter filters "status" "status:" query_parts in
  let query_parts := append_filter filters "assignee" "assignee:" query_parts in
  let query_parts := append_filter filters "project" "project:" query_parts in
  let query_parts := append_filter filters "query" "" query_parts in
  match query_parts with
  | [] => "*"
  | _ :: _ => join " " query_parts
  end.

(** The event type of [transition] (adapter.py lines 397-402). *)
Definition event_type_of (previous_status : json) (to_status : string)
    (blocked_by : option (list string)) : string :=
  let event_type := "status_changed" in
  if String.eqb to_status "blocked"
     || match blocked_by with
        | Some l => truthy (JList (JStr <$> l))
        | None => false
        end
  then "blocked"
  else if py_eq_str previous_status "blocked"
          && negb (String.eqb to_status "blocked")
  then "unblocked"
  else event_type.

(** Lines 56-69 of [_graphql_request]: the payload and the request. *)
Definition build_request (self : LinearTicketAdapter) (query : string)
    (variables : option (gmap string json)) : request :=
  let payload : gmap string json := {[ "query" := JStr query ]} in
  let payload :=
    match variables with
    | Some v =>
        if truthy (JObj v) then <["variables" := JObj v]> payload
        else payload
    | None => payload
    end in
  {| url := LINEAR_API_URL;
     data := JObj payload;
     headers := [("Authorization", "Bearer " ++ api_key self);
                 ("Content-Type", "application/json")] |}.

(** [Exception(f"Linear GraphQL error: {error_msg}")]. *)
Definition GraphQLError (error_msg : string) : exn :=
  Exception ("Linear GraphQL error: " ++ error_msg).

(** [Exception(f"Ticket {ticket_id} not found")]. *)
Definition not_found (ticket_id : string) : exn :=
  Exception ("Ticket " ++ ticket_id ++ " not found").

(** ** Vocabulary of the specification *)

(** A dict, as every node of a search result is. *)
Definition is_dict (v : json) : Prop := exists m, v = JObj m.

(** A node whose [identifier] field is exactly [ticket_id]. *)
Definition has_identifier (ticket_id : string) (node : json) : Prop :=
  exists m, node = JObj m /\ m !! "identifier" = Some (JStr ticket_id).

(** An entry of an [errors] array whose [message] field is [msg]. *)
Definition has_message (e : json) (msg : string) : Prop :=
  exists m, e = JObj m /\ m !! "message" = Some (JStr msg).

(** [no_exception r]: [r] does not raise an [Exception] object; what the
    interpreter raises ([TypeError], [KeyError], ...) is of another class. *)
Definition no_exception {A} (r : res A) : Prop :=
  forall msg, r <> Raise (Exception msg).

(** The names [update] recognizes, with the name of the remote schema each
    is sent under. *)
Definition field_names : list (string * string) :=
  [("title", "title"); ("description", "description");
   ("priority", "priority"); ("labels", "labelIds");
   ("state_id", "stateId"); ("assignee_id", "assigneeId");
   ("project_id", "projectId")].

Definition option_list {A} (o : option A) : list A :=
  match o with
  | Some a => [a]
  | None => []
  end.

(** The search term in the words of the specification: the fragments of
    the filters that are present, in the order status, assignee, project,
    free text, joined by single spaces; the match-all token when none of
    the four is given. *)
Definition spec_fragments (filters : gmap string string) : list string :=
  (option_list (String.append "status:" <$> filters !! "status")
   ++ option_list (String.append "assignee:" <$> filters !! "assignee")
   ++ option_list (String.append "project:" <$> filters !! "project")
   ++ option_list (filters !! "query"))%list.

Definition spec_search_term (filters : gmap string string) : string :=
  if bool_decide (filters !! "status" = None /\ filters !! "assignee" = None
                  /\ filters !! "project" = None /\ filters !! "query" = None)
  then "*"
  else join " " (spec_fragments filters).

(** The event type as the specification words it: a blocking-ticket list
    counts as soon as it is supplied. *)
Definition spec_event_type (previous_status : json) (to_status : string)
    (blocked_by : option (list string)) : string :=
  if bool_decide (to_status = "blocked") || bool_decide (is_Some blocked_by)
  then "blocked"
  else if py_eq_str previous_status "blocked" then "unblocked"
  else "status_changed".

(** The [variables] of a request and, inside them, its [input]. *)
Definition sent_variables (req : request) : option (gmap string json) :=
  match data req with
  | JObj payload =>
      match payload !! "variables" with
      | Some (JObj variables) => Some variables
      | _ => None
      end
  | _ => None
  end.

Definition sent_input (req : request) : option (gmap string json) :=
  match sent_variables req with
  | Some variables =>
      match variables !! "input" with
      | Some (JObj input) => Some input
      | _ => None
      end
  | None => None
  end.

(** The request of an identifier search: the document [query] with the
    variables [{"query": term}]. *)
Definition search_request (self : LinearTicketAdapter) (query term : string)
    : request :=
  build_request self query (Some {[ "query" := JStr term ]}).

(** The GraphQL document of a request. *)
Definition sent_query (req : request) : option string :=
  match data req with
  | JObj payload =>
      match payload !! "query" with
      | Some (JStr q) => Some q
      | _ => None
      end
  | _ => None
  end.

(** ** Sample data *)

(** A remote that answers the n-th request with the n-th outcome of a
    list, as a scripted server does. *)
Definition replay (responses : list http_outcome)
    : list request -> request -> http_outcome :=
  fun sent _ => nth (length sent) responses (URLError "no response").

(** Timestamps kept as the text handed to [fromisoformat]. *)
Definition keep_text (s : string) : string + string := inr s.

Definition no_str (v : json) : string := "".

Definition sample_self : LinearTicketAdapter :=
  init "test-api-key" "team-uuid"
    (Some {[ "in_progress" := "77631f63-b27b-45a5-8b04-f9f82b4facde" ]}).

Definition sample_issue (state : string) : gmap string json :=
  {[ "id" := JStr "issue-uuid";
     "identifier" := JStr "DBC-123";
     "title" := JStr "Test ticket";
     "createdAt" := JStr "2024-01-01T00:00:00Z";
     "state" := JObj {[ "id" := JStr "state-uuid"; "name" := JStr state ]};
     "priority" := JInt 2;
     "labels" := JObj {[ "nodes" := JList [JObj {[ "name" := JStr "bug" ]}] ]} ]}.

Definition sample_node (state : string) : json := JObj (sample_issue state).

(** The record [_parse_ticket] makes of [sample_node state]. *)
Definition sample_ticket (state : string) : TicketRecord.t string :=
  TicketRecord.mk (JStr "DBC-123") (JStr "Test ticket") JNull (JStr state)
    HIGH JNull JNull [JStr "bug"] (Some "2024-01-01T00:00:00+00:00") None.

(** A node of another ticket. *)
Definition other_node : json :=
  JObj {[ "id" := JStr "other-uuid"; "identifier" := JStr "DBC-1234" ]}.

Definition search_body (nodes : list json) : gmap string json :=
  {[ "data" := JObj {[ "issueSearch" := JObj {[ "nodes" := JList nodes ]} ]} ]}.

Definition search_response (nodes : list json) : json :=
  JObj (search_body nodes).

Definition success_response (operation : string) : json :=
  JObj {[ "data" := JObj {[ operation := JObj {[ "success" := JBool true ]} ]} ]}.

Definition error_entry (msg : string) : json :=
  JObj {[ "message" := JStr msg ]}.

Definition errors_body (messages : list string) : gmap string json :=
  {[ "errors" := JList (error_entry <$> messages) ]}.

(** A transition answered throughout: the search of [get], the search and
    the mutation of [update], the search and the mutation of
    [add_comment]. *)
Definition transition_script (state : string) : list http_outcome :=
  [HttpOk (search_response [sample_node state]);
   HttpOk (search_response [sample_node state]);
   HttpOk (success_response "issueUpdate");
   HttpOk (search_response [sample_node state]);
   HttpOk (success_response "commentCreate")].

(** ** Vocabulary of the further properties *)

(** A request that goes to the endpoint of Linear with the headers of the
    adapter: the bearer token and the JSON content type. *)
Definition well_addressed (self : LinearTicketAdapter) (req : request)
    : Prop :=
  url req = LINEAR_API_URL /\
  headers req = [("Authorization", "Bearer " ++ api_key self);
                 ("Content-Type", "application/json")].

(** [sends_at_most self n m]: whatever was sent before, [m] keeps it and
    adds at most [n] requests, each of them well addressed. *)
Definition sends_at_most {A} (self : LinearTicketAdapter) (n : nat)
    (m : M A) : Prop :=
  forall sent, exists new,
    snd (m sent) = (sent ++ new)%list /\
    Forall (well_addressed self) new /\
    (length new <= n)%nat.

(** The text an error entry contributes to the message of a GraphQL
    error: its [message] when it has one, else [str] of the entry. *)
Definition entry_text (py_str : json -> string) (e : json) (msg : string)
    : Prop :=
  exists m, e = JObj m /\
    (m !! "message" = Some (JStr msg)
     \/ (m !! "message" = None /\ msg = py_str e)).

(** A value that [for] cannot iterate over. *)
Definition not_iterable (v : json) : Prop :=
  v = JNull \/ (exists b, v = JBool b) \/ (exists z, v = JInt z).

(** The names of the remote schema that [create] fills from its own
    parameters. *)
Definition create_names : list string :=
  ["teamId"; "title"; "description"; "priority"; "projectId"; "labelIds"].

(** The three event types. *)
Definition event_types : list string :=
  ["status_changed"; "blocked"; "unblocked"].


(** A label object whose [name] is [name]. *)
Definition has_name (label name : json) : Prop :=
  exists m, label = JObj m /\ m !! "name" = Some name.

(** A timestamp field that [_parse_ticket] accepts: missing, null, the
    empty string, or a string that [fromisoformat] parses once every "Z"
    has become "+00:00". *)
Definition timestamp_ok {datetime : Type}
    (fromisoformat : string -> string + datetime) (v : option json) : Prop :=
  v = None \/ v = Some JNull \/
  exists s, v = Some (JStr s) /\
    (s = "" \/
     exists d, fromisoformat (replace "Z"%char "+00:00" s) = inr d).

(** A field that is missing, null or an object. *)
Definition object_or_null (v : option json) : Prop :=
  v = None \/ v = Some JNull \/ exists m, v = Some (JObj m).

(** An issue as the remote returns it for the selection of [get]: an
    integer priority, labels that carry names, timestamps that parse, and
    objects where objects are selected; every field may be missing. *)
Definition well_formed_issue {datetime : Type}
    (fromisoformat : string -> string + datetime)
    (issue : gmap string json) : Prop :=
  (issue !! "priority" = None \/ exists z, issue !! "priority" = Some (JInt z))
  /\
  (issue !! "labels" = None \/
   exists labels : gmap string json,
     issue !! "labels" = Some (JObj labels) /\
     (labels !! "nodes" = None \/
      exists nodes, labels !! "nodes" = Some (JList nodes) /\
        Forall (fun node => exists name, has_name node name) nodes)) /\
  timestamp_ok fromisoformat (issue !! "createdAt") /\
  timestamp_ok fromisoformat (issue !! "updatedAt") /\
  (issue !! "state" = None \/
   exists state : gmap string json, issue !! "state" = Some (JObj state)) /\
  object_or_null (issue !! "project") /\
  object_or_null (issue !! "assignee").

(** A string without the character [c]. *)
Definition free_of (c : ascii) (s : string) : Prop :=
  Forall (fun a => a <> c) (list_ascii_of_string s).


(** The filters [list_tickets] recognizes. *)
Definition filter_names : list string :=
  ["status"; "assignee"; "project"; "query"].

(** A response body that carries no search nodes: no [data], a [data]
    without [issueSearch], or an [issueSearch] without [nodes]. *)
Definition no_nodes (body : gmap string json) : Prop :=
  body !! "data" = None \/
  exists data : gmap string json,
    body !! "data" = Some (JObj data) /\
    (data !! "issueSearch" = None \/
     exists found : gmap string json,
       data !! "issueSearch" = Some (JObj found) /\
       found !! "nodes" = None).


(** ** Further sample data *)

Definition sample_uuid : string := "77631f63-b27b-45a5-8b04-f9f82b4facde".

(** A node with the identifier of the sample ticket and no internal id. *)
Definition idless_issue : gmap string json :=
  {[ "identifier" := JStr "DBC-123" ]}.

(** An issue one of whose labels has no name. *)
Definition nameless_issue : gmap string json :=
  {[ "labels" := JObj {[ "nodes" := JList [JObj ∅] ]} ]}.

(** The body of the answer to a mutation: [inner] under the name of the
    operation, under [data]. *)
Definition answer_body (operation : string) (inner : gmap string json)
    : gmap string json :=
  {[ "data" := JObj {[ operation := JObj inner ]} ]}.

(** An error entry without a message. *)
Definition coded_entry : json := JObj {[ "code" := JInt 1 ]}.


(** ** The operations of the adapter *)

Section Adapter.

(** [datetime] and [datetime.fromisoformat]: a parsed timestamp, or the
    message of the [ValueError] it raises. *)
Variable datetime : Type.
Variable fromisoformat : string -> string + datetime.

(** [str(v)], used for an error entry that has no message. *)
Variable py_str : json -> string.

(** The remote endpoint: its answer to a request, given the requests
    sent before it. *)
Variable remote : list request -> request -> http_outcome.

Abbreviation ticket := (TicketRecord.t datetime).

(** The message of an error entry: [e.get("message", str(e))]. *)
Definition error_message (e : json) : res json :=
  py_get e "message" (JStr (py_str e)).

(** Lines 75-81 of [_graphql_request]: the check of the decoded body. *)
Definition check_errors (result : json) : res json :=
  let? has_errors := py_in "errors" result in
  if has_errors then
    let? errors := py_getitem result "errors" in
    let? errors := py_iter errors in
    let? messages := mapR error_message errors in
    let? messages := mapR as_str messages in
    let error_msg := join "; " messages in
    Raise (GraphQLError error_msg)
  else Ok result.

(** Lines 71-86 of [_graphql_request]: what the call returns or raises
    for each outcome of [urlopen]. *)
Definition decode (outcome : http_outcome) : res json :=
  match outcome with
  | HttpOk result => check_errors result
  | HttpNotJson msg => Raise (ValueError msg)
  | HTTPError code fp =>
      let error_body := default "No error body" fp in
      Raise (Exception ("Linear API HTTP error " ++ pretty code
               ++ ": " ++ error_body))
  | URLError reason =>
      Raise (Exception ("Linear API network error: " ++ reason))
  end.

Definition _graphql_request (self : LinearTicketAdapter) (query : string)
    (variables : option (gmap string json)) : M json :=
  fun sent =>
    let req := build_request self query variables in
    (decode (remote sent req), (sent ++ [req])%list).

(** [datetime.fromisoformat(s.replace("Z", "+00:00"))] under its guard
    [if s := issue.get(...)]. *)
Definition parse_timestamp (v : json) : res (option datetime) :=
  if truthy v then
    match v with
    | JStr s =>
        match fromisoformat (replace "Z"%char "+00:00" s) with
        | inr d => Ok (Some d)
        | inl msg => Raise (ValueError msg)
        end
    | _ => Raise AttributeError
    end
  else Ok None.

(** [issue.get(k, {}).get("name") if issue.get(k) else None]. *)
Definition nested_name (issue : json) (k : string) : res json :=
  let? guard := py_get issue k JNull in
  if truthy guard then
    let? obj := py_get issue k (JObj ∅) in
    py_get obj "name" JNull
  else Ok JNull.

Definition _parse_ticket (issue : json) : res ticket :=
  let? priority_value := py_get issue "priority" (JInt 0) in
  let? priority := priority_map_get priority_value in
  let? labels_obj := py_get issue "labels" (JObj ∅) in
  let? label_nodes := py_get labels_obj "nodes" (JList []) in
  let? label_nodes := py_iter label_nodes in
  let? labels := mapR (fun label => py_getitem label "name") label_nodes in
  let? created_str := py_get issue "createdAt" JNull in
  let? created_at := parse_timestamp created_str in
  let? updated_str := py_get issue "updatedAt" JNull in
  let? modified_at := parse_timestamp updated_str in
  let? internal_id := py_get issue "id" (JStr "") in
  let? id := py_get issue "identifier" internal_id in
  let? title := py_get issue "title" (JStr "") in
  let? description := py_get issue "description" JNull in
  let? state := py_get issue "state" (JObj ∅) in
  let? status := py_get state "name" (JStr "") in
  let? project := nested_name issue "project" in
  let? assignee := nested_name issue "assignee" in
  Ok (TicketRecord.mk id title description status priority project
        assignee labels created_at modified_at).

(** The loop of [get] over the search nodes. *)
Fixpoint get_loop (ticket_id : string) (nodes : list json) : res ticket :=
  match nodes with
  | [] => Raise (not_found ticket_id)
  | node :: nodes' =>
      let? ident := py_get node "identifier" JNull in
      if py_eq_str ident ticket_id then _parse_ticket node
      else get_loop ticket_id nodes'
  end.

Definition get (self : LinearTicketAdapter) (ticket_id : string)
    : M ticket :=
  let! result :=
    _graphql_request self get_query (Some {[ "query" := JStr ticket_id ]}) in
  lift (let? nodes := search_nodes result in
        let? nodes := py_iter nodes in
        get_loop ticket_id nodes).

Definition create (self : LinearTicketAdapter) (title : string)
    (description team_id' project_id : option string)
    (priority : option Z) (labels : option (list string))
    (kwargs : gmap string json) : M json :=
  let issue_input :=
    create_issue_input self title description team_id' project_id
      priority labels kwargs in
  let! result :=
    _graphql_request self create_mutation
      (Some {[ "input" := JObj issue_input ]}) in
  lift (let? d := py_get result "data" (JObj ∅) in
        let? data := py_get d "issueCreate" (JObj ∅) in
        let? success := py_get data "success" JNull in
        if negb (truthy success)
        then Raise (Exception "Failed to create Linear issue")
        else
          let? issue := py_get data "issue" (JObj ∅) in
          let? internal_id := py_get issue "id" (JStr "") in
          py_get issue "identifier" internal_id).

(** The search of [update] and [add_comment] for the internal id. *)
Definition resolve_issue_id (self : LinearTicketAdapter)
    (query ticket_id : string) : M json :=
  let! result :=
    _graphql_request self query (Some {[ "query" := JStr ticket_id ]}) in
  lift (let? nodes := search_nodes result in
        let? nodes := py_iter nodes in
        let? issue_id := find_issue_id ticket_id nodes in
        if negb (truthy issue_id) then Raise (not_found ticket_id)
        else Ok issue_id).

Definition update (self : LinearTicketAdapter) (ticket_id : string)
    (fields : gmap string json) : M unit :=
  let issue_input := update_issue_input fields in
  let! issue_id := resolve_issue_id self update_query ticket_id in
  let! result :=
    _graphql_request self update_mutation
      (Some {[ "id" := issue_id; "input" := JObj issue_input ]}) in
  lift (let? d := py_get result "data" (JObj ∅) in
        let? data := py_get d "issueUpdate" (JObj ∅) in
        let? success := py_get data "success" JNull in
        if negb (truthy success)
        then Raise (Exception ("Failed to update ticket " ++ ticket_id))
        else Ok tt).

Definition add_comment (self : LinearTicketAdapter)
    (ticket_id body : string) : M unit :=
  let! issue_id := resolve_issue_id self add_comment_query ticket_id in
  let! result :=
    _graphql_request self add_comment_mutation
      (Some {[ "input" :=
                 JObj {[ "issueId" := issue_id; "body" := JStr body ]} ]}) in
  lift (let? d := py_get result "data" (JObj ∅) in
        let? data := py_get d "commentCreate" (JObj ∅) in
        let? success := py_get data "success" JNull in
        if negb (truthy success)
        then Raise (Exception ("Failed to add comment to ticket "
                                 ++ ticket_id))
        else Ok tt).

Definition transition (self : LinearTicketAdapter)
    (ticket_id to_status : string) (note : option string)
    (blocked_by : option (list string)) : M TransitionResult.t :=
  let! current_ticket := get self ticket_id in
  let previous_status := TicketRecord.status current_ticket in
  let! state_id := lift (_resolve_state_id self to_status) in
  let! updated :=
    update self ticket_id {[ "state_id" := JStr state_id ]} in
  let! commented :=
    match note with
    | Some n =>
        if truthy (JStr n) then add_comment self ticket_id n else ret tt
    | None => ret tt
    end in
  let event_type := event_type_of previous_status to_status blocked_by in
  let elapsed_minutes : option Z := None in
  ret (TransitionResult.mk ticket_id previous_status to_status event_type
         elapsed_minutes).

Definition list_tickets (self : LinearTicketAdapter)
    (filters : gmap string string) : M (list ticket) :=
  let! result :=
    _graphql_request self list_tickets_graphql_query
      (Some {[ "query" := JStr (search_query filters) ]}) in
  lift (let? nodes := search_nodes result in
        let? nodes := py_iter nodes in
        mapR _parse_ticket nodes).


(** ** Properties *)

(** *** The result monad *)

Lemma no_exception_Ok {A} (a : A) : no_exception (Ok a).
Proof. intros msg H. discriminate H. Qed.

Lemma no_exception_rbind {A B} (r : res A) (k : A -> res B) :
  no_exception r -> (forall a, no_exception (k a)) ->
  no_exception (rbind r k).
Proof.
  intros Hr Hk msg. destruct r as [a|e]; simpl.
  - apply Hk.
  - intros H. apply (Hr msg). congruence.
Qed.

Lemma no_exception_py_get v k d : no_exception (py_get v k d).
Proof. intros msg. destruct v; simpl; discriminate. Qed.

Lemma no_exception_py_iter v : no_exception (py_iter v).
Proof. intros msg. destruct v; simpl; discriminate. Qed.

Lemma no_exception_py_getitem v k : no_exception (py_getitem v k).
Proof.
  intros msg. destruct v; simpl; try discriminate.
  destruct (m !! k); discriminate.
Qed.

Lemma no_exception_priority_map_get v : no_exception (priority_map_get v).
Proof. intros msg. destruct v; simpl; discriminate. Qed.

Lemma no_exception_mapR {A B} (f : A -> res B) l :
  (forall x, no_exception (f x)) -> no_exception (mapR f l).
Proof.
  intros Hf. induction l as [|x l IH]; simpl.
  - apply no_exception_Ok.
  - apply no_exception_rbind; [apply Hf|]. intros y.
    apply no_exception_rbind; [exact IH|]. intros ys.
    apply no_exception_Ok.
Qed.

Lemma no_exception_parse_timestamp v : no_exception (parse_timestamp v).
Proof.
  intros msg. unfold parse_timestamp.
  destruct (truthy v); [|discriminate].
  destruct v; try discriminate.
  destruct (fromisoformat _); discriminate.
Qed.

Lemma no_exception_nested_name issue k : no_exception (nested_name issue k).
Proof.
  unfold nested_name.
  apply no_exception_rbind; [apply no_exception_py_get|]. intros guard.
  destruct (truthy guard); [|apply no_exception_Ok].
  apply no_exception_rbind; [apply no_exception_py_get|]. intros obj.
  apply no_exception_py_get.
Qed.

Create HintDb no_exc.
#[local] Hint Resolve no_exception_Ok no_exception_py_get
  no_exception_py_iter no_exception_py_getitem
  no_exception_priority_map_get no_exception_parse_timestamp
  no_exception_nested_name : no_exc.

(** [_parse_ticket] raises no [Exception]: its failures are those of the
    interpreter and of [fromisoformat]. *)
Lemma no_exception_parse_ticket issue : no_exception (_parse_ticket issue).
Proof.
  unfold _parse_ticket.
  repeat (apply no_exception_rbind;
          [first [ solve [auto with no_exc]
                 | apply no_exception_mapR; intros; auto with no_exc ]
          | intros ? ]).
  auto with no_exc.
Qed.

(** *** Status resolution *)

Lemma match_uuid_chars_all n s :
  String.length s = n ->
  Forall (fun c => uuid_char c = true) (list_ascii_of_string s) ->
  match_uuid_chars n s = Some "".
Proof.
  revert s. induction n as [|n IH]; intros [|c s] Hlen Hall;
    simpl in *; try discriminate; [reflexivity|].
  inversion Hall as [|? ? Hc Hs]; subst.
  rewrite Hc. apply IH; [congruence | exact Hs].
Qed.

(** A token that is UUID-shaped is returned as it is, whatever the
    mapping holds. *)
Lemma resolve_state_id_uuid self status :
  uuid_shaped status -> _resolve_state_id self status = Ok status.
Proof.
  intros [Hlen Hall]. unfold _resolve_state_id, re_match_uuid.
  rewrite (match_uuid_chars_all 36 status Hlen Hall). reflexivity.
Qed.

(** A token the pattern rejects is looked up in the mapping. *)
Lemma resolve_state_id_lookup self status :
  re_match_uuid status = false ->
  _resolve_state_id self status =
    match state_mapping self !! status with
    | Some state => Ok state
    | None =>
        Raise (ValueError ("Status '" ++ status
                 ++ "' not found in state_mapping and is not a UUID"))
    end.
Proof. intros H. unfold _resolve_state_id. rewrite H. reflexivity. Qed.

(** C2 (the code departs from the claim). A token of 37 characters, 36
    hex digits and hyphens followed by a newline, is not UUID-shaped and
    is no key of the empty mapping, yet [_resolve_state_id] returns it
    unchanged instead of raising the invalid-argument error. *)
Theorem resolve_state_id_trailing_newline :
  ~ uuid_shaped uuid_nl /\
  state_mapping (init "k" "" None) !! uuid_nl = None /\
  _resolve_state_id (init "k" "" None) uuid_nl = Ok uuid_nl.
Proof.
  split; [|split].
  - intros [Hlen _]. vm_compute in Hlen. discriminate Hlen.
  - reflexivity.
  - vm_compute. reflexivity.
Qed.


(** *** Response parsing *)

Ltac step_rbind :=
  match goal with
  | H : context [rbind ?r _] |- _ =>
      let E := fresh "E" in
      destruct r eqn:E; simpl in H; [|discriminate H]
  end.

(** Evaluate the left-hand side of an equation, and only it. *)
Ltac eval_lhs H :=
  lazymatch type of H with
  | ?l = ?r => let l' := eval vm_compute in l in change (l' = r) in H
  end.

(** The priority of a parsed record is what the table gives for the
    [priority] field, 0 standing in for a missing field. *)
Lemma parsed_priority_lookup (issue : gmap string json) (t : ticket) :
  _parse_ticket (JObj issue) = Ok t ->
  priority_map_get (default (JInt 0) (issue !! "priority"))
  = Ok (TicketRecord.priority t).
Proof.
  unfold _parse_ticket. intros H. simpl py_get in H. simpl in H.
  repeat step_rbind.
  injection H as <-. simpl. reflexivity.
Qed.

Lemma priority_map_other z :
  z < 0 \/ 4 < z -> priority_map !! z = None.
Proof.
  intros Hz. unfold priority_map.
  repeat (rewrite lookup_insert_ne by lia).
  apply lookup_singleton_ne. lia.
Qed.

(** C3. The priority of the record parsed from an issue object is NONE,
    URGENT, HIGH, NORMAL, LOW for the priority integers 0, 1, 2, 3, 4,
    and NONE for any other integer and for a missing priority field. *)
Theorem parse_ticket_priority (issue : gmap string json) (t : ticket) :
  _parse_ticket (JObj issue) = Ok t ->
  (issue !! "priority" = Some (JInt 0) -> TicketRecord.priority t = NONE) /\
  (issue !! "priority" = Some (JInt 1) -> TicketRecord.priority t = URGENT) /\
  (issue !! "priority" = Some (JInt 2) -> TicketRecord.priority t = HIGH) /\
  (issue !! "priority" = Some (JInt 3) -> TicketRecord.priority t = NORMAL) /\
  (issue !! "priority" = Some (JInt 4) -> TicketRecord.priority t = LOW) /\
  (forall z, issue !! "priority" = Some (JInt z) -> z < 0 \/ 4 < z ->
             TicketRecord.priority t = NONE) /\
  (issue !! "priority" = None -> TicketRecord.priority t = NONE).
Proof.
  intros H. apply parsed_priority_lookup in H.
  repeat split.
  1-5: intros Hp; rewrite Hp in H; eval_lhs H; congruence.
  - intros z Hp Hz. rewrite Hp in H. simpl in H.
    rewrite (priority_map_other z Hz) in H. simpl in H. congruence.
  - intros Hp. rewrite Hp in H. eval_lhs H. congruence.
Qed.

(** *** Request execution *)

Lemma graphql_request_eq self query variables sent :
  _graphql_request self query variables sent =
    (decode (remote sent (build_request self query variables)),
     (sent ++ [build_request self query variables])%list).
Proof. reflexivity. Qed.

(** A body without a top-level [errors] key is returned as it is. *)
Lemma check_errors_clean (body : gmap string json) :
  body !! "errors" = None -> check_errors (JObj body) = Ok (JObj body).
Proof.
  intros H. unfold check_errors. simpl. rewrite H.
  rewrite bool_decide_eq_false_2; [reflexivity|].
  intros [x Hx]. discriminate Hx.
Qed.

Lemma mapR_error_message errors messages :
  Forall2 has_message errors messages ->
  mapR error_message errors = Ok (JStr <$> messages).
Proof.
  induction 1 as [|e msg errors messages (m & -> & Hm) _ IH]; simpl.
  - reflexivity.
  - rewrite IH. unfold error_message. simpl. rewrite Hm. reflexivity.
Qed.

Lemma mapR_as_str messages : mapR as_str (JStr <$> messages) = Ok messages.
Proof.
  induction messages as [|msg messages IH]; csimpl.
  - reflexivity.
  - rewrite IH. reflexivity.
Qed.

Lemma check_errors_raises (body : gmap string json) errors messages :
  body !! "errors" = Some (JList errors) ->
  Forall2 has_message errors messages ->
  check_errors (JObj body) = Raise (GraphQLError (join "; " messages)).
Proof.
  intros Hb Hm. unfold check_errors. simpl. rewrite Hb.
  rewrite bool_decide_eq_true_2 by eauto. simpl.
  rewrite (mapR_error_message _ _ Hm). simpl.
  rewrite mapR_as_str. reflexivity.
Qed.

(** C9. When the decoded response has a top-level [errors] array, the
    request raises the GraphQL error whose message is the [message]
    fields of the entries of the array, in order, joined with "; ",
    whatever the number of entries. *)
Theorem graphql_errors_joined self query variables sent
    (body : gmap string json) errors messages :
  remote sent (build_request self query variables) = HttpOk (JObj body) ->
  body !! "errors" = Some (JList errors) ->
  Forall2 has_message errors messages ->
  fst (_graphql_request self query variables sent)
  = Raise (GraphQLError (join "; " messages)).
Proof.
  intros Hr Hb Hm. rewrite graphql_request_eq. simpl. rewrite Hr. simpl.
  apply (check_errors_raises body errors messages Hb Hm).
Qed.


(** *** get *)

Lemma identifier_test (m : gmap string json) ticket_id :
  py_eq_str (default JNull (m !! "identifier")) ticket_id = true
  <-> m !! "identifier" = Some (JStr ticket_id).
Proof.
  destruct (m !! "identifier") as [[]|]; simpl;
    try (split; [discriminate | intros [=]]).
  rewrite String.eqb_eq. split; [intros -> | intros [=]]; congruence.
Qed.

Lemma get_loop_hit ticket_id node nodes :
  has_identifier ticket_id node ->
  get_loop ticket_id (node :: nodes) = _parse_ticket node.
Proof.
  intros (m & -> & Hm). simpl.
  apply identifier_test in Hm. rewrite Hm. reflexivity.
Qed.

Lemma get_loop_skip ticket_id node nodes :
  is_dict node -> ~ has_identifier ticket_id node ->
  get_loop ticket_id (node :: nodes) = get_loop ticket_id nodes.
Proof.
  intros [m ->] Hno. simpl.
  destruct (py_eq_str _ ticket_id) eqn:E; [|reflexivity].
  apply identifier_test in E. exfalso. apply Hno. exists m. auto.
Qed.

Lemma get_loop_first ticket_id pre node post :
  Forall is_dict pre ->
  Forall (fun n => ~ has_identifier ticket_id n) pre ->
  has_identifier ticket_id node ->
  get_loop ticket_id (pre ++ node :: post) = _parse_ticket node.
Proof.
  intros Hd Hno Hid. induction pre as [|n pre IH].
  - apply get_loop_hit, Hid.
  - inversion Hd; inversion Hno; subst.
    change ((n :: pre) ++ node :: post)%list
      with (n :: (pre ++ node :: post))%list.
    rewrite get_loop_skip by assumption. auto.
Qed.

Lemma get_loop_not_found ticket_id nodes :
  Forall is_dict nodes ->
  get_loop ticket_id nodes = Raise (not_found ticket_id)
  <-> Forall (fun n => ~ has_identifier ticket_id n) nodes.
Proof.
  induction 1 as [|n nodes Hn Hd IH].
  - split; [constructor | reflexivity].
  - destruct Hn as [m ->].
    destruct (py_eq_str (default JNull (m !! "identifier")) ticket_id)
      eqn:E.
    + apply identifier_test in E.
      assert (Hid : has_identifier ticket_id (JObj m)) by (exists m; auto).
      rewrite (get_loop_hit _ _ _ Hid). split.
      * intros Hr. exfalso.
        exact (no_exception_parse_ticket (JObj m) _ Hr).
      * intros Hall. inversion Hall; subst. contradiction.
    + assert (Hno : ~ has_identifier ticket_id (JObj m)).
      { intros (m' & [= <-] & Hm). apply identifier_test in Hm.
        congruence. }
      rewrite get_loop_skip by (eauto || exists m; reflexivity).
      rewrite IH. split.
      * intros Hall. constructor; assumption.
      * intros Hall. inversion Hall; assumption.
Qed.

Lemma get_eq self ticket_id sent (body : gmap string json) nodes :
  remote sent (search_request self get_query ticket_id)
    = HttpOk (JObj body) ->
  body !! "errors" = None ->
  search_nodes (JObj body) = Ok (JList nodes) ->
  get self ticket_id sent =
    (get_loop ticket_id nodes,
     (sent ++ [search_request self get_query ticket_id])%list).
Proof.
  intros Hr He Hn. unfold get, bind. rewrite graphql_request_eq.
  fold (search_request self get_query ticket_id).
  rewrite Hr. simpl decode. rewrite (check_errors_clean body He).
  unfold lift. rewrite Hn. reflexivity.
Qed.

(** C5. Against a search response whose nodes are objects, [get]
    returns what [_parse_ticket] makes of the first node whose
    identifier is exactly [ticket_id], and it fails with the not-found
    error if and only if no node has that identifier (the empty list of
    nodes included). *)
Theorem get_first_exact_match self ticket_id sent
    (body : gmap string json) nodes :
  remote sent (search_request self get_query ticket_id)
    = HttpOk (JObj body) ->
  body !! "errors" = None ->
  search_nodes (JObj body) = Ok (JList nodes) ->
  Forall is_dict nodes ->
  (forall pre node post,
      nodes = (pre ++ node :: post)%list ->
      Forall (fun n => ~ has_identifier ticket_id n) pre ->
      has_identifier ticket_id node ->
      fst (get self ticket_id sent) = _parse_ticket node) /\
  (fst (get self ticket_id sent) = Raise (not_found ticket_id)
   <-> Forall (fun n => ~ has_identifier ticket_id n) nodes).
Proof.
  intros Hr He Hn Hd. rewrite (get_eq _ _ _ _ _ Hr He Hn). simpl. split.
  - intros pre node post -> Hno Hid.
    apply get_loop_first; [|assumption|assumption].
    apply Forall_app in Hd. tauto.
  - apply get_loop_not_found, Hd.
Qed.


(** *** list_tickets *)

(** The term built by the code is the term of the specification. *)
Lemma search_query_spec filters :
  search_query filters = spec_search_term filters.
Proof.
  unfold search_query, spec_search_term, spec_fragments, append_filter.
  destruct (filters !! "status") as [s|];
    destruct (filters !! "assignee") as [a|];
    destruct (filters !! "project") as [p|];
    destruct (filters !! "query") as [q|];
    simpl; try case_bool_decide; try reflexivity; naive_solver.
Qed.

Lemma mapR_Ok {A B} (f : A -> res B) l ys :
  mapR f l = Ok ys <-> Forall2 (fun x y => f x = Ok y) l ys.
Proof.
  revert ys. induction l as [|x l IH]; intros ys; simpl.
  - split.
    + intros [= <-]. constructor.
    + intros H. inversion H. reflexivity.
  - split.
    + destruct (f x) as [y|e] eqn:Ey; simpl; [|discriminate].
      destruct (mapR f l) as [ys'|e] eqn:Eys; simpl; [|discriminate].
      intros [= <-]. constructor; [assumption|]. apply IH. reflexivity.
    + intros H. inversion H as [|? y ? ys' Hy Hys]; subst.
      rewrite Hy. simpl. apply IH in Hys. rewrite Hys. reflexivity.
Qed.

(** C6. [list_tickets] sends one search whose term is the fragments
    status:<value>, assignee:<value>, project:<value> of the filters
    that are present and the free-text query as it is, joined by single
    spaces, or the match-all token when none of the four is given; the
    list it returns holds the record parsed from every node of the
    response, in order. *)
Theorem list_tickets_search self filters sent :
  snd (list_tickets self filters sent)
  = (sent ++ [search_request self list_tickets_graphql_query
                (spec_search_term filters)])%list /\
  (forall (body : gmap string json) nodes,
      remote sent (search_request self list_tickets_graphql_query
                     (spec_search_term filters)) = HttpOk (JObj body) ->
      body !! "errors" = None ->
      search_nodes (JObj body) = Ok (JList nodes) ->
      forall records,
        fst (list_tickets self filters sent) = Ok records
        <-> Forall2 (fun node t => _parse_ticket node = Ok t)
              nodes records).
Proof.
  unfold list_tickets, bind. rewrite graphql_request_eq.
  rewrite search_query_spec.
  fold (search_request self list_tickets_graphql_query
          (spec_search_term filters)).
  split.
  - destruct (decode _); reflexivity.
  - intros body nodes Hr He Hn records. rewrite Hr. simpl decode.
    rewrite (check_errors_clean body He). unfold lift. rewrite Hn.
    simpl. apply mapR_Ok.
Qed.

(** *** update *)

Lemma lookup_copy_field_eq fields caller remote' v
    (input : gmap string json) :
  fields !! caller = Some v ->
  copy_field fields caller remote' input !! remote' = Some v.
Proof.
  intros H. unfold copy_field. rewrite H. apply lookup_insert_eq.
Qed.

Lemma lookup_copy_field_ne fields caller remote' k
    (input : gmap string json) :
  remote' <> k ->
  copy_field fields caller remote' input !! k = input !! k.
Proof.
  intros H. unfold copy_field.
  destruct (fields !! caller); [|reflexivity].
  apply lookup_insert_ne, H.
Qed.

(** Every recognized field travels under its remote name. *)
Lemma update_issue_input_maps fields caller remote' v :
  (caller, remote') ∈ field_names ->
  fields !! caller = Some v ->
  update_issue_input fields !! remote' = Some v.
Proof.
  intros Hin Hv. unfold field_names in Hin.
  repeat (apply elem_of_cons in Hin as [[= -> ->]|Hin]);
    [..|by apply elem_of_nil in Hin];
    unfold update_issue_input;
    repeat (rewrite lookup_copy_field_ne by discriminate);
    apply lookup_copy_field_eq, Hv.
Qed.

(** A field outside the recognized names does not reach the input. *)
Lemma update_issue_input_ignores fields k v :
  k ∉ field_names.*1 ->
  update_issue_input (<[k := v]> fields) = update_issue_input fields.
Proof using Type.
  intros Hk. unfold update_issue_input, copy_field.
  repeat (rewrite lookup_insert_ne;
          [|intros ->; apply Hk; simpl; rewrite !elem_of_cons; auto 10]).
  reflexivity.
Qed.

Lemma resolve_issue_id_trace self query ticket_id sent :
  snd (resolve_issue_id self query ticket_id sent)
  = (sent ++ [search_request self query ticket_id])%list.
Proof.
  unfold resolve_issue_id, bind. rewrite graphql_request_eq.
  destruct (decode _); reflexivity.
Qed.

(** C7. Once the search has resolved the internal id, [update] sends the
    update mutation with an input in which every supplied recognized
    field stands under its remote name (title, description, priority,
    labelIds, stateId, assigneeId, projectId) with the caller's value. *)
Theorem update_maps_fields self ticket_id fields sent issue_id sent1 :
  resolve_issue_id self update_query ticket_id sent
    = (Ok issue_id, sent1) ->
  exists input,
    snd (update self ticket_id fields sent)
    = (sent1 ++ [build_request self update_mutation
                   (Some {[ "id" := issue_id;
                            "input" := JObj input ]})])%list /\
    forall caller remote' v,
      (caller, remote') ∈ field_names ->
      fields !! caller = Some v ->
      input !! remote' = Some v.
Proof.
  intros Hres. exists (update_issue_input fields). split.
  - unfold update, bind. rewrite Hres. rewrite graphql_request_eq.
    destruct (decode _); reflexivity.
  - intros caller remote' v. apply update_issue_input_maps.
Qed.


(** *** create *)

(** What the loop over [kwargs] leaves under a key: the value of the
    keyword when there is one and it is not [None], else what the input
    held before the loop. *)
Lemma fold_add_kwarg_lookup (base kwargs : gmap string json) k :
  map_fold add_kwarg base kwargs !! k =
    match kwargs !! k with
    | Some JNull | None => base !! k
    | Some v => Some v
    end.
Proof.
  apply (map_fold_weak_ind
           (fun r (m : gmap string json) =>
              r !! k = match m !! k with
                       | Some JNull | None => base !! k
                       | Some v => Some v
                       end)).
  - rewrite lookup_empty. reflexivity.
  - intros i x m r Hi IH. destruct (decide (i = k)) as [->|Hne].
    + rewrite lookup_insert_eq. rewrite Hi in IH.
      destruct x; simpl; rewrite ?lookup_insert_eq; auto.
    + rewrite lookup_insert_ne by assumption.
      destruct x; simpl; rewrite ?lookup_insert_ne by assumption; auto.
Qed.

Lemma create_issue_input_kwarg self title description team_id'
    project_id priority labels (kwargs : gmap string json) k v :
  kwargs !! k = Some v -> v <> JNull ->
  create_issue_input self title description team_id' project_id priority
    labels kwargs !! k = Some v.
Proof.
  intros Hk Hv. unfold create_issue_input.
  rewrite fold_add_kwarg_lookup, Hk. destruct v; congruence.
Qed.

(** A keyword equal to [None] leaves the input as if it had not been
    given. *)
Lemma create_issue_input_none self title description team_id'
    project_id priority labels (kwargs : gmap string json) k :
  kwargs !! k = Some JNull ->
  create_issue_input self title description team_id' project_id priority
    labels kwargs
  = create_issue_input self title description team_id' project_id
      priority labels (delete k kwargs).
Proof.
  intros Hk. unfold create_issue_input. apply map_eq. intros j.
  rewrite !fold_add_kwarg_lookup.
  destruct (decide (k = j)) as [<-|Hne].
  - rewrite Hk, lookup_delete_eq. reflexivity.
  - rewrite lookup_delete_ne by assumption. reflexivity.
Qed.

(** The [priority] entry of the input, for a [kwargs] that does not
    carry that name. *)
Lemma create_issue_input_priority self title description team_id'
    project_id priority labels (kwargs : gmap string json) :
  kwargs !! "priority" = None ->
  create_issue_input self title description team_id' project_id priority
    labels kwargs !! "priority" = JInt <$> priority.
Proof.
  intros Hk. unfold create_issue_input.
  rewrite fold_add_kwarg_lookup, Hk.
  destruct description as [d|]; [destruct (truthy (JStr d))|];
    destruct priority as [p|];
    (destruct project_id as [q|]; [destruct (truthy (JStr q))|]);
    (destruct labels as [l|]; [destruct (truthy (JList (JStr <$> l)))|]);
    simplify_map_eq; reflexivity.
Qed.

Lemma create_trace self title description team_id' project_id priority
    labels kwargs sent :
  snd (create self title description team_id' project_id priority labels
         kwargs sent)
  = (sent ++ [build_request self create_mutation
                (Some {[ "input" :=
                           JObj (create_issue_input self title description
                                   team_id' project_id priority labels
                                   kwargs) ]})])%list.
Proof.
  unfold create, bind. rewrite graphql_request_eq.
  destruct (decode _); reflexivity.
Qed.

Lemma sent_input_build self query (input : gmap string json) :
  sent_input (build_request self query (Some {[ "input" := JObj input ]}))
  = Some input.
Proof.
  unfold sent_input, sent_variables, build_request. simpl.
  rewrite map_size_singleton. simpl.
  rewrite lookup_insert_eq. rewrite lookup_singleton_eq. reflexivity.
Qed.

(** C4 (as amended). [create] passes every extra keyword field whose
    value is not None into the creation input under its own name and
    unchanged; [update] forwards the recognized fields only: a field of
    any other name is dropped, the call behaving as if it had not been
    supplied. *)
Theorem extra_fields_create_update self :
  (forall title description team_id' project_id priority labels
          (kwargs : gmap string json) sent k v,
      kwargs !! k = Some v -> v <> JNull ->
      exists req input,
        snd (create self title description team_id' project_id priority
               labels kwargs sent) = (sent ++ [req])%list /\
        sent_input req = Some input /\
        input !! k = Some v) /\
  (forall ticket_id (fields : gmap string json) k v,
      k ∉ field_names.*1 ->
      update self ticket_id (<[k := v]> fields)
      = update self ticket_id fields).
Proof.
  split.
  - intros title description team_id' project_id priority labels kwargs
      sent k v Hk Hv.
    eexists _, _. split; [apply create_trace|]. split.
    + apply sent_input_build.
    + apply create_issue_input_kwarg; assumption.
  - intros ticket_id fields k v Hk. unfold update.
    rewrite update_issue_input_ignores by assumption. reflexivity.
Qed.

(** The keys a falsy argument leaves out of the creation input, for a
    [kwargs] that does not carry the key itself, and the key of a keyword
    equal to None. *)
Lemma create_issue_input_falsy self title description team_id' project_id
    priority labels (kwargs : gmap string json) :
  let input :=
    create_issue_input self title description team_id' project_id priority
      labels kwargs in
  (kwargs !! "description" = None ->
   description = None \/ description = Some "" ->
   input !! "description" = None) /\
  (kwargs !! "projectId" = None ->
   project_id = None \/ project_id = Some "" ->
   input !! "projectId" = None) /\
  (kwargs !! "labelIds" = None ->
   labels = None \/ labels = Some [] ->
   input !! "labelIds" = None) /\
  (forall k, k ∉ create_names -> kwargs !! k = Some JNull ->
     input !! k = None).
Proof using Type.
  intros input. subst input. unfold create_issue_input.
  split; [|split; [|split]].
  - intros Hk Hd. rewrite fold_add_kwarg_lookup, Hk.
    destruct Hd as [-> | ->];
      [|change (truthy (JStr "")) with false; cbv iota];
      destruct priority as [p|];
      (destruct project_id as [q|]; [destruct (truthy (JStr q))|]);
      (destruct labels as [l|]; [destruct (truthy (JList (JStr <$> l)))|]);
      simplify_map_eq; reflexivity.
  - intros Hk Hp. rewrite fold_add_kwarg_lookup, Hk.
    destruct Hp as [-> | ->];
      [|change (truthy (JStr "")) with false; cbv iota];
      (destruct description as [d|]; [destruct (truthy (JStr d))|]);
      destruct priority as [p|];
      (destruct labels as [l|]; [destruct (truthy (JList (JStr <$> l)))|]);
      simplify_map_eq; reflexivity.
  - intros Hk Hl. rewrite fold_add_kwarg_lookup, Hk.
    destruct Hl as [-> | ->];
      [|change (truthy (JList (JStr <$> []))) with false; cbv iota];
      (destruct description as [d|]; [destruct (truthy (JStr d))|]);
      destruct priority as [p|];
      (destruct project_id as [q|]; [destruct (truthy (JStr q))|]);
      simplify_map_eq; reflexivity.
  - intros k Hout Hk. rewrite fold_add_kwarg_lookup, Hk.
    unfold create_names in Hout. rewrite !not_elem_of_cons in Hout.
    destruct Hout as (? & ? & ? & ? & ? & ? & _).
    (destruct description as [d|]; [destruct (truthy (JStr d))|]);
      destruct priority as [p|];
      (destruct project_id as [q|]; [destruct (truthy (JStr q))|]);
      (destruct labels as [l|]; [destruct (truthy (JList (JStr <$> l)))|]);
      simplify_map_eq; reflexivity.
Qed.

(** C10. [create] leaves an optional field out of the creation input when
    the value supplied for it is falsy: an empty description, an empty
    project id and an empty list of labels each give the call made
    without the argument, and so does an extra keyword equal to None;
    a priority is left out only when it is None, so priority 0 is sent.
    In the input of the request that is sent, [description], [projectId]
    and [labelIds] are absent when the argument is empty as when it is
    not given, and the name of an extra keyword equal to None is absent.
    (Python binds a keyword of the name of a parameter to the parameter,
    so [kwargs] never has the key [priority]; the hypotheses on
    [description], [projectId] and [labelIds] exclude an extra keyword
    that carries the remote name itself.) *)
Theorem create_omits_falsy self title description team_id' project_id
    priority labels (kwargs : gmap string json) :
  create self title (Some "") team_id' project_id priority labels kwargs
  = create self title None team_id' project_id priority labels kwargs /\
  create self title description team_id' (Some "") priority labels kwargs
  = create self title description team_id' None priority labels kwargs /\
  create self title description team_id' project_id priority (Some [])
    kwargs
  = create self title description team_id' project_id priority None
      kwargs /\
  (forall k, kwargs !! k = Some JNull ->
     create self title description team_id' project_id priority labels
       kwargs
     = create self title description team_id' project_id priority labels
         (delete k kwargs)) /\
  (kwargs !! "priority" = None ->
   forall sent, exists req input,
     snd (create self title description team_id' project_id priority
            labels kwargs sent) = (sent ++ [req])%list /\
     sent_input req = Some input /\
     input !! "priority" = JInt <$> priority) /\
  (forall sent, exists req input,
     snd (create self title description team_id' project_id priority
            labels kwargs sent) = (sent ++ [req])%list /\
     sent_input req = Some input /\
     (kwargs !! "description" = None ->
      description = None \/ description = Some "" ->
      input !! "description" = None) /\
     (kwargs !! "projectId" = None ->
      project_id = None \/ project_id = Some "" ->
      input !! "projectId" = None) /\
     (kwargs !! "labelIds" = None ->
      labels = None \/ labels = Some [] ->
      input !! "labelIds" = None) /\
     (forall k, k ∉ create_names -> kwargs !! k = Some JNull ->
        input !! k = None)).
Proof.
  split; [reflexivity|]. split; [reflexivity|]. split; [reflexivity|].
  split; [|split].
  - intros k Hk. unfold create.
    rewrite (create_issue_input_none _ _ _ _ _ _ _ _ k Hk). reflexivity.
  - intros Hk sent. eexists _, _. split; [apply create_trace|]. split.
    + apply sent_input_build.
    + apply create_issue_input_priority, Hk.
  - intros sent. eexists _, _. split; [apply create_trace|]. split.
    + apply sent_input_build.
    + apply create_issue_input_falsy.
Qed.


(** *** transition *)

(** The steps of a transition that returns. *)
Lemma transition_inv self ticket_id to_status note blocked_by sent tr
    sent' :
  transition self ticket_id to_status note blocked_by sent
    = (Ok tr, sent') ->
  exists current sent1 state_id sent2,
    get self ticket_id sent = (Ok current, sent1) /\
    _resolve_state_id self to_status = Ok state_id /\
    update self ticket_id {[ "state_id" := JStr state_id ]} sent1
      = (Ok tt, sent2) /\
    tr = TransitionResult.mk ticket_id (TicketRecord.status current)
           to_status
           (event_type_of (TicketRecord.status current) to_status
              blocked_by)
           None.
Proof.
  unfold transition, bind, lift, ret. intros H.
  destruct (get self ticket_id sent) as [[current|e] sent1] eqn:Hget;
    [|discriminate H].
  destruct (_resolve_state_id self to_status) as [state_id|e] eqn:Hres;
    [|discriminate H].
  destruct (update self ticket_id {[ "state_id" := JStr state_id ]} sent1)
    as [[[]|e] sent2] eqn:Hupd; [|discriminate H].
  exists current, sent1, state_id, sent2.
  repeat (split; [first [reflexivity | assumption]|]).
  destruct note as [n|]; [destruct (truthy (JStr n))|].
  - destruct (add_comment self ticket_id n sent2) as [[[]|e] sent3];
      [|discriminate H].
    injection H as <- _. reflexivity.
  - injection H as <- _. reflexivity.
  - injection H as <- _. reflexivity.
Qed.

Lemma event_type_of_blocked previous_status to_status blocked_by :
  to_status = "blocked" \/ (exists b bs, blocked_by = Some (b :: bs)) ->
  event_type_of previous_status to_status blocked_by = "blocked".
Proof.
  unfold event_type_of. intros [->|(b & bs & ->)].
  - reflexivity.
  - rewrite orb_true_r. reflexivity.
Qed.

Lemma event_type_of_not_blocked previous_status to_status blocked_by :
  to_status <> "blocked" -> blocked_by = None \/ blocked_by = Some [] ->
  event_type_of previous_status to_status blocked_by =
    if py_eq_str previous_status "blocked" then "unblocked"
    else "status_changed".
Proof.
  intros Hto Hb. unfold event_type_of.
  apply String.eqb_neq in Hto. rewrite Hto.
  destruct Hb as [->| ->]; simpl; rewrite andb_true_r; reflexivity.
Qed.

Lemma py_eq_str_true v s : py_eq_str v s = true <-> v = JStr s.
Proof.
  destruct v; simpl; try (split; [discriminate | intros [=]]).
  rewrite String.eqb_eq. split; [intros -> | intros [=]]; congruence.
Qed.

(** C1 (as amended). The event type of the result of a transition is
    "blocked" if the target status is the token "blocked" or a
    blocking-ticket list with at least one entry was supplied; else
    "unblocked" if the status fetched for the ticket before the update
    was "blocked"; else "status_changed". *)
Theorem transition_event_type self ticket_id to_status note blocked_by
    sent tr sent' :
  transition self ticket_id to_status note blocked_by sent
    = (Ok tr, sent') ->
  exists current sent1,
    get self ticket_id sent = (Ok current, sent1) /\
    TransitionResult.previous_status tr = TicketRecord.status current /\
    (to_status = "blocked" \/ (exists b bs, blocked_by = Some (b :: bs)) ->
     TransitionResult.event_type tr = "blocked") /\
    (to_status <> "blocked" ->
     blocked_by = None \/ blocked_by = Some [] ->
     (TicketRecord.status current = JStr "blocked" ->
      TransitionResult.event_type tr = "unblocked") /\
     (TicketRecord.status current <> JStr "blocked" ->
      TransitionResult.event_type tr = "status_changed")).
Proof.
  intros H. apply transition_inv in H
    as (current & sent1 & state_id & sent2 & Hget & _ & _ & ->).
  exists current, sent1. simpl. split; [assumption|].
  split; [reflexivity|]. split.
  - apply event_type_of_blocked.
  - intros Hto Hb. rewrite (event_type_of_not_blocked _ _ _ Hto Hb).
    split.
    + intros ->. reflexivity.
    + intros Hs.
      destruct (py_eq_str _ "blocked") eqn:E; [|reflexivity].
      apply py_eq_str_true in E. contradiction.
Qed.

Lemma update_trace self ticket_id fields sent sent2 :
  update self ticket_id fields sent = (Ok tt, sent2) ->
  exists issue_id,
    sent2 = (sent ++ [search_request self update_query ticket_id;
                      build_request self update_mutation
                        (Some {[ "id" := issue_id;
                                 "input" :=
                                   JObj (update_issue_input fields) ]})
                     ])%list.
Proof.
  unfold update, bind. intros H.
  pose proof (resolve_issue_id_trace self update_query ticket_id sent)
    as Ht.
  destruct (resolve_issue_id self update_query ticket_id sent)
    as [[issue_id|e] sent1]; [|discriminate H].
  simpl in Ht. subst sent1. exists issue_id.
  rewrite graphql_request_eq in H.
  destruct (decode _); simpl in H; [|discriminate H].
  unfold lift in H. injection H as _ <-.
  rewrite <- app_assoc. reflexivity.
Qed.

(** C8 (as amended). In a transition with a non-empty note whose fetch,
    status resolution and state update succeed, the comment follows the
    update: after the update mutation that carries the resolved state,
    [add_comment] searches for the ticket and, the search having
    resolved the internal id, sends the comment-creation mutation with
    the note as its body; it is the last request of the call. *)
Theorem transition_note_comment self ticket_id to_status note blocked_by
    sent current sent1 state_id sent2 issue_id sent3 :
  note <> "" ->
  get self ticket_id sent = (Ok current, sent1) ->
  _resolve_state_id self to_status = Ok state_id ->
  update self ticket_id {[ "state_id" := JStr state_id ]} sent1
    = (Ok tt, sent2) ->
  resolve_issue_id self add_comment_query ticket_id sent2
    = (Ok issue_id, sent3) ->
  exists updated_id,
    snd (transition self ticket_id to_status (Some note) blocked_by sent)
    = (sent1
       ++ [search_request self update_query ticket_id;
           build_request self update_mutation
             (Some {[ "id" := updated_id;
                      "input" := JObj {[ "stateId" := JStr state_id ]} ]});
           search_request self add_comment_query ticket_id;
           build_request self add_comment_mutation
             (Some {[ "input" :=
                        JObj {[ "issueId" := issue_id;
                                "body" := JStr note ]} ]})])%list.
Proof.
  intros Hnote Hget Hres Hupd Hid.
  destruct (update_trace _ _ _ _ _ Hupd) as [updated_id Hs2].
  exists updated_id.
  pose proof (resolve_issue_id_trace self add_comment_query ticket_id
                sent2) as Hs3.
  rewrite Hid in Hs3. simpl in Hs3.
  unfold transition, bind, lift. rewrite Hget, Hres, Hupd.
  assert (Ht : truthy (JStr note) = true).
  { simpl. apply negb_true_iff, String.eqb_neq, Hnote. }
  rewrite Ht. unfold add_comment, bind. rewrite Hid.
  rewrite graphql_request_eq.
  assert (Hu : update_issue_input {[ "state_id" := JStr state_id ]}
               = {[ "stateId" := JStr state_id ]}).
  { unfold update_issue_input, copy_field. simplify_map_eq.
    reflexivity. }
  rewrite Hu in Hs2.
  assert (Hall : (sent3 ++ [build_request self add_comment_mutation
                     (Some {[ "input" :=
                                JObj {[ "issueId" := issue_id;
                                        "body" := JStr note ]} ]})])%list
                 = (sent1
       ++ [search_request self update_query ticket_id;
           build_request self update_mutation
             (Some {[ "id" := updated_id;
                      "input" := JObj {[ "stateId" := JStr state_id ]} ]});
           search_request self add_comment_query ticket_id;
           build_request self add_comment_mutation
             (Some {[ "input" :=
                        JObj {[ "issueId" := issue_id;
                                "body" := JStr note ]} ]})])%list).
  { rewrite Hs3, Hs2. rewrite <- !app_assoc. reflexivity. }
  rewrite <- Hall.
  destruct (decode _) as [result|e]; simpl; [|reflexivity].
  destruct (rbind _ _) as [[]|e]; reflexivity.
Qed.


(** ** Further properties of the code *)

(** *** The pattern of [_resolve_state_id] *)

Lemma append_cons c (s t : string) : String c s ++ t = String c (s ++ t).
Proof. reflexivity. Qed.

Lemma append_empty_r (s : string) : s ++ "" = s.
Proof.
  induction s as [|c s IH]; [reflexivity|].
  rewrite append_cons, IH. reflexivity.
Qed.

Lemma match_uuid_chars_Some n s rest :
  match_uuid_chars n s = Some rest <->
  exists u, s = u ++ rest /\ String.length u = n /\
            Forall (fun c => uuid_char c = true) (list_ascii_of_string u).
Proof.
  revert s. induction n as [|n IH]; intros s; simpl.
  - split.
    + intros [= ->]. exists "". repeat split. constructor.
    + intros (u & -> & Hlen & _). destruct u; [reflexivity|discriminate].
  - destruct s as [|c s].
    + split; [discriminate|].
      intros (u & Hs & Hlen & _). destruct u; discriminate.
    + destruct (uuid_char c) eqn:Hc.
      * rewrite IH. split.
        -- intros (u & -> & Hlen & Hall). exists (String c u).
           repeat split; simpl; [congruence|]. constructor; assumption.
        -- intros (u & Hs & Hlen & Hall).
           destruct u as [|c' u]; [discriminate|].
           rewrite append_cons in Hs. simpl in Hlen, Hall.
           injection Hs as <- ->.
           inversion Hall; subst. exists u. repeat split; congruence.
      * split; [discriminate|].
        intros (u & Hs & Hlen & Hall).
        destruct u as [|c' u]; [discriminate|].
        rewrite append_cons in Hs. simpl in Hall. injection Hs as <- ->.
        inversion Hall; subst. congruence.
Qed.

(** X1. The pattern of [_resolve_state_id] accepts exactly the tokens of
    36 characters among the digits, the letters a to f and the hyphen, and
    those tokens followed by one newline. *)
Theorem resolve_state_id_pattern status :
  re_match_uuid status = true <->
  uuid_shaped status \/
  (exists u, status = u ++ newline /\ uuid_shaped u).
Proof.
  unfold re_match_uuid, at_dollar, uuid_shaped. split.
  - destruct (match_uuid_chars 36 status) as [rest|] eqn:E; [|discriminate].
    apply match_uuid_chars_Some in E as (u & -> & Hlen & Hall).
    rewrite orb_true_iff, !String.eqb_eq. intros [-> | ->].
    + left. rewrite append_empty_r. auto.
    + right. exists u. auto.
  - intros [[Hlen Hall] | (u & -> & Hlen & Hall)].
    + rewrite (match_uuid_chars_all 36 status Hlen Hall). reflexivity.
    + assert (E : match_uuid_chars 36 (u ++ newline) = Some newline)
        by (apply match_uuid_chars_Some; exists u; auto).
      rewrite E. reflexivity.
Qed.

(** X2. [_resolve_state_id] returns a UUID-shaped token as it is whatever
    the mapping holds; what it returns is always the token itself or the
    entry of the mapping for it; and it raises only the [ValueError] that
    names the token, which happens exactly when the pattern rejects the
    token and the mapping has no entry for it. *)
Theorem resolve_state_id_outcome self status :
  (uuid_shaped status -> _resolve_state_id self status = Ok status) /\
  (forall state, _resolve_state_id self status = Ok state ->
     (re_match_uuid status = true /\ state = status) \/
     (re_match_uuid status = false /\
      state_mapping self !! status = Some state)) /\
  (forall e, _resolve_state_id self status = Raise e <->
     re_match_uuid status = false /\
     state_mapping self !! status = None /\
     e = ValueError ("Status '" ++ status
           ++ "' not found in state_mapping and is not a UUID")).
Proof.
  split; [apply resolve_state_id_uuid|].
  unfold _resolve_state_id.
  destruct (re_match_uuid status);
    [|destruct (state_mapping self !! status) as [v|]].
  - split.
    + intros state [= <-]. auto.
    + intros e. split; [discriminate | intros [[=] _]].
  - split.
    + intros state [= <-]. auto.
    + intros e. split; [discriminate | intros (_ & [=] & _)].
  - split.
    + intros state [=].
    + intros e. split.
      * intros [= <-]. auto.
      * intros (_ & _ & ->). reflexivity.
Qed.

(** *** The request and the decoded response *)

Lemma sent_query_build self query variables :
  sent_query (build_request self query variables) = Some query.
Proof.
  unfold sent_query, build_request. simpl.
  destruct variables as [v|]; [destruct (negb _)|];
    simplify_map_eq; reflexivity.
Qed.

Lemma sent_variables_build self query (variables : gmap string json) :
  variables <> ∅ ->
  sent_variables (build_request self query (Some variables))
  = Some variables.
Proof.
  intros Hne. unfold sent_variables, build_request. simpl.
  assert (Hs : Nat.eqb (size variables) 0 = false).
  { apply Nat.eqb_neq. intros Hz. apply map_size_empty_inv in Hz.
    contradiction. }
  rewrite Hs. simpl. rewrite lookup_insert_eq. reflexivity.
Qed.

Lemma well_addressed_build self query variables :
  well_addressed self (build_request self query variables).
Proof. split; reflexivity. Qed.

(** X3. The payload of a request holds the document under [query] and the
    variables under [variables]; variables that are absent or an empty
    dict are left out of the payload. Every request goes to the endpoint
    of Linear with the bearer token of the adapter. *)
Theorem build_request_payload self query :
  (forall variables,
      sent_query (build_request self query variables) = Some query /\
      well_addressed self (build_request self query variables)) /\
  (forall variables : gmap string json,
      variables <> ∅ ->
      sent_variables (build_request self query (Some variables))
      = Some variables) /\
  data (build_request self query None) = JObj {[ "query" := JStr query ]} /\
  data (build_request self query (Some ∅))
  = JObj {[ "query" := JStr query ]}.
Proof.
  split; [|split; [|split; reflexivity]].
  - intros variables. split.
    + apply sent_query_build.
    + apply well_addressed_build.
  - intros variables Hne. apply sent_variables_build, Hne.
Qed.

Lemma mapR_error_message_text errors messages :
  Forall2 (entry_text py_str) errors messages ->
  mapR error_message errors = Ok (JStr <$> messages).
Proof.
  induction 1 as [|e msg errors messages (m & -> & Hm) _ IH]; simpl.
  - reflexivity.
  - rewrite IH. unfold error_message. simpl.
    destruct Hm as [Hm | [Hm ->]]; rewrite Hm; reflexivity.
Qed.

(** X4. An entry of the [errors] array that has no [message] contributes
    [str] of the entry: the message of the GraphQL error joins, with "; ",
    the [message] of each entry that has one and [str(e)] of each entry
    that has none. *)
Theorem graphql_errors_fallback self query variables sent
    (body : gmap string json) errors messages :
  remote sent (build_request self query variables) = HttpOk (JObj body) ->
  body !! "errors" = Some (JList errors) ->
  Forall2 (entry_text py_str) errors messages ->
  fst (_graphql_request self query variables sent)
  = Raise (GraphQLError (join "; " messages)).
Proof.
  intros Hr Hb Hm. rewrite graphql_request_eq. simpl. rewrite Hr. simpl.
  unfold check_errors. simpl. rewrite Hb.
  rewrite bool_decide_eq_true_2 by eauto. simpl.
  rewrite (mapR_error_message_text _ _ Hm). simpl.
  rewrite mapR_as_str. reflexivity.
Qed.

Lemma mapR_error_message_dicts errors :
  Forall is_dict errors ->
  exists messages, mapR error_message errors = Ok messages.
Proof.
  induction 1 as [|e errors [m ->] _ (messages & IH)]; simpl.
  - exists []. reflexivity.
  - rewrite IH. simpl. eexists. reflexivity.
Qed.

Lemma mapR_error_message_app pre messages e v post :
  Forall2 (entry_text py_str) pre messages ->
  error_message e = Ok v ->
  Forall is_dict post ->
  exists rest,
    mapR error_message (pre ++ e :: post)
    = Ok ((JStr <$> messages) ++ v :: rest)%list.
Proof.
  intros Hpre He Hpost.
  destruct (mapR_error_message_dicts post Hpost) as [rest Hrest].
  exists rest.
  induction Hpre as [|d msg pre messages (m & -> & Hm) _ IH].
  - simpl. rewrite He. simpl. rewrite Hrest. reflexivity.
  - change (mapR error_message ((JObj m :: pre) ++ e :: post)%list)
      with (rbind (error_message (JObj m))
              (fun y => rbind (mapR error_message (pre ++ e :: post)%list)
                          (fun ys => Ok (y :: ys)))).
    rewrite IH. unfold error_message at 1. simpl.
    destruct Hm as [Hm | [Hm ->]]; rewrite Hm; reflexivity.
Qed.

Lemma mapR_error_message_not_dict pre e post :
  Forall is_dict pre -> ~ is_dict e ->
  mapR error_message (pre ++ e :: post) = Raise AttributeError.
Proof.
  intros Hpre He. induction Hpre as [|d pre [m ->] _ IH]; simpl.
  - destruct e; simpl; try reflexivity. exfalso. apply He. eexists.
    reflexivity.
  - change (mapR error_message (pre ++ e :: post))
      with (mapR error_message (pre ++ e :: post)%list) in *.
    rewrite IH. reflexivity.
Qed.

Lemma mapR_as_str_not_str pre v post :
  Forall (fun x => exists s, x = JStr s) pre ->
  (forall s, v <> JStr s) ->
  mapR as_str (pre ++ v :: post) = Raise TypeError.
Proof.
  intros Hpre Hv. induction Hpre as [|d pre [s ->] _ IH]; simpl.
  - destruct v; simpl; try reflexivity. exfalso. apply (Hv s). reflexivity.
  - rewrite IH. reflexivity.
Qed.

(** X5. A response whose top-level [errors] is malformed does not raise the
    GraphQL error: [errors] that is null, a boolean or a number raises a
    [TypeError]; an array with an entry that is not an object raises an
    [AttributeError]; an array of objects in which a [message] is not a
    string raises a [TypeError]. *)
Theorem graphql_errors_malformed self query variables sent
    (body : gmap string json) :
  remote sent (build_request self query variables) = HttpOk (JObj body) ->
  (forall v, body !! "errors" = Some v -> not_iterable v ->
     fst (_graphql_request self query variables sent) = Raise TypeError) /\
  (forall pre e post,
     body !! "errors" = Some (JList (pre ++ e :: post)) ->
     Forall is_dict pre -> ~ is_dict e ->
     fst (_graphql_request self query variables sent)
     = Raise AttributeError) /\
  (forall pre messages (m : gmap string json) v post,
     body !! "errors" = Some (JList (pre ++ JObj m :: post)) ->
     Forall2 (entry_text py_str) pre messages ->
     m !! "message" = Some v -> (forall s, v <> JStr s) ->
     Forall is_dict post ->
     fst (_graphql_request self query variables sent) = Raise TypeError).
Proof.
  intros Hr. rewrite graphql_request_eq. simpl. rewrite Hr. simpl.
  unfold check_errors. split; [|split].
  - intros v Hb Hv. simpl. rewrite Hb.
    rewrite bool_decide_eq_true_2 by eauto. simpl.
    destruct Hv as [->|[[b ->]|[z ->]]]; reflexivity.
  - intros pre e post Hb Hpre He. simpl. rewrite Hb.
    rewrite bool_decide_eq_true_2 by eauto. simpl.
    rewrite (mapR_error_message_not_dict _ _ _ Hpre He). reflexivity.
  - intros pre messages m v post Hb Hpre Hm Hv Hpost. simpl. rewrite Hb.
    rewrite bool_decide_eq_true_2 by eauto. simpl.
    assert (He : error_message (JObj m) = Ok v)
      by (unfold error_message; simpl; rewrite Hm; reflexivity).
    destruct (mapR_error_message_app _ _ _ _ _ Hpre He Hpost)
      as [rest Hrest].
    rewrite Hrest. simpl.
    rewrite mapR_as_str_not_str; [reflexivity| |assumption].
    apply Forall_fmap, Forall_true. intros s. simpl. eauto.
Qed.


(** *** What the operations send *)

Lemma sends_lift {A} self (r : res A) : sends_at_most self 0 (lift r).
Proof.
  intros sent. exists []. simpl. rewrite app_nil_r. auto.
Qed.

Lemma sends_ret {A} self (a : A) : sends_at_most self 0 (ret a).
Proof.
  intros sent. exists []. simpl. rewrite app_nil_r. auto.
Qed.

Lemma sends_weaken {A} self n n' (m : M A) :
  (n <= n')%nat -> sends_at_most self n m -> sends_at_most self n' m.
Proof.
  intros Hn Hm sent. destruct (Hm sent) as (new & E & F & L).
  exists new. repeat split; [assumption..|lia].
Qed.

Lemma sends_bind {A B} self n k (m : M A) (f : A -> M B) :
  sends_at_most self n m -> (forall a, sends_at_most self k (f a)) ->
  sends_at_most self (n + k) (bind m f).
Proof.
  intros Hm Hf sent. destruct (Hm sent) as (new1 & E1 & F1 & L1).
  unfold bind. destruct (m sent) as [[a|e] sent1]; simpl in E1; subst sent1.
  - destruct (Hf a (sent ++ new1)%list) as (new2 & E2 & F2 & L2).
    exists (new1 ++ new2)%list. rewrite E2, app_assoc.
    repeat split; [apply Forall_app; auto|]. rewrite length_app. lia.
  - exists new1. repeat split; [assumption|]. simpl. lia.
Qed.

Lemma sends_graphql_request self query variables :
  sends_at_most self 1 (_graphql_request self query variables).
Proof.
  intros sent. exists [build_request self query variables].
  rewrite graphql_request_eq. simpl. repeat split; [|lia].
  constructor; [apply well_addressed_build | constructor].
Qed.

Lemma sends_resolve_issue_id self query ticket_id :
  sends_at_most self 1 (resolve_issue_id self query ticket_id).
Proof.
  unfold resolve_issue_id.
  apply (sends_bind self 1 0); [apply sends_graphql_request|].
  intros result. apply sends_lift.
Qed.

Lemma sends_get self ticket_id : sends_at_most self 1 (get self ticket_id).
Proof.
  unfold get.
  apply (sends_bind self 1 0); [apply sends_graphql_request|].
  intros result. apply sends_lift.
Qed.

Lemma sends_update self ticket_id fields :
  sends_at_most self 2 (update self ticket_id fields).
Proof.
  unfold update.
  apply (sends_bind self 1 1); [apply sends_resolve_issue_id|].
  intros issue_id.
  apply (sends_bind self 1 0); [apply sends_graphql_request|].
  intros result. apply sends_lift.
Qed.

Lemma sends_add_comment self ticket_id body :
  sends_at_most self 2 (add_comment self ticket_id body).
Proof.
  unfold add_comment.
  apply (sends_bind self 1 1); [apply sends_resolve_issue_id|].
  intros issue_id.
  apply (sends_bind self 1 0); [apply sends_graphql_request|].
  intros result. apply sends_lift.
Qed.

(** X6. Every operation keeps the requests sent before it and adds
    requests to the endpoint of Linear under the bearer token of the
    adapter only: at most one for [get], [create] and [list_tickets], at
    most two for [update] and [add_comment], at most five for
    [transition]. *)
Theorem operations_send_authorized self :
  (forall ticket_id, sends_at_most self 1 (get self ticket_id)) /\
  (forall title description team_id' project_id priority labels kwargs,
      sends_at_most self 1
        (create self title description team_id' project_id priority labels
           kwargs)) /\
  (forall filters, sends_at_most self 1 (list_tickets self filters)) /\
  (forall ticket_id fields,
      sends_at_most self 2 (update self ticket_id fields)) /\
  (forall ticket_id body,
      sends_at_most self 2 (add_comment self ticket_id body)) /\
  (forall ticket_id to_status note blocked_by,
      sends_at_most self 5
        (transition self ticket_id to_status note blocked_by)).
Proof.
  split; [apply sends_get|].
  split.
  { intros. unfold create.
    apply (sends_bind self 1 0); [apply sends_graphql_request|].
    intros result. apply sends_lift. }
  split.
  { intros. unfold list_tickets.
    apply (sends_bind self 1 0); [apply sends_graphql_request|].
    intros result. apply sends_lift. }
  split; [apply sends_update|].
  split; [apply sends_add_comment|].
  intros. unfold transition.
  apply (sends_bind self 1 4); [apply sends_get|]. intros current.
  apply (sends_bind self 0 4); [apply sends_lift|]. intros state_id.
  apply (sends_bind self 2 2); [apply sends_update|]. intros updated.
  apply (sends_bind self 2 0); [|intros commented; apply sends_ret].
  destruct note as [n|]; [destruct (truthy (JStr n))|].
  - apply sends_add_comment.
  - apply (sends_weaken self 0); [lia | apply sends_ret].
  - apply (sends_weaken self 0); [lia | apply sends_ret].
Qed.

Lemma bind_raise {A B} (m : M A) (f : A -> M B) sent e :
  fst (m sent) = Raise e -> bind m f sent = (Raise e, snd (m sent)).
Proof.
  unfold bind. destruct (m sent) as [[a|e'] sent1]; simpl.
  - discriminate.
  - intros [= ->]. reflexivity.
Qed.

Lemma get_trace self ticket_id sent :
  snd (get self ticket_id sent)
  = (sent ++ [search_request self get_query ticket_id])%list.
Proof.
  unfold get, bind. rewrite graphql_request_eq.
  destruct (decode _); reflexivity.
Qed.

(** X7. A failure of the first request ends the operation with that
    failure and nothing more is sent: when the search of [get] fails,
    [get] and [transition] raise its exception after that one request;
    when the identifier search fails, [update] and [add_comment] raise its
    exception and send no mutation. *)
Theorem request_failure_aborts self ticket_id sent e :
  (fst (_graphql_request self get_query
          (Some {[ "query" := JStr ticket_id ]}) sent) = Raise e ->
   get self ticket_id sent
   = (Raise e, (sent ++ [search_request self get_query ticket_id])%list) /\
   forall to_status note blocked_by,
     transition self ticket_id to_status note blocked_by sent
     = (Raise e, (sent ++ [search_request self get_query ticket_id])%list))
  /\
  (fst (_graphql_request self update_query
          (Some {[ "query" := JStr ticket_id ]}) sent) = Raise e ->
   (forall fields,
      update self ticket_id fields sent
      = (Raise e,
         (sent ++ [search_request self update_query ticket_id])%list)) /\
   (forall body,
      add_comment self ticket_id body sent
      = (Raise e,
         (sent ++ [search_request self add_comment_query ticket_id])%list))).
Proof.
  split.
  - intros H.
    assert (Hget : get self ticket_id sent
              = (Raise e,
                 (sent ++ [search_request self get_query ticket_id])%list)).
    { unfold get. rewrite (bind_raise _ _ _ _ H). reflexivity. }
    split; [exact Hget|]. intros to_status note blocked_by.
    unfold transition. rewrite bind_raise with (e := e).
    + rewrite Hget. reflexivity.
    + rewrite Hget. reflexivity.
  - intros H.
    assert (Hres : forall query, query = update_query ->
              resolve_issue_id self query ticket_id sent
              = (Raise e,
                 (sent ++ [search_request self query ticket_id])%list)).
    { intros query ->. unfold resolve_issue_id.
      rewrite (bind_raise _ _ _ _ H). reflexivity. }
    split.
    + intros fields. unfold update. rewrite bind_raise with (e := e).
      * rewrite Hres by reflexivity. reflexivity.
      * rewrite Hres by reflexivity. reflexivity.
    + intros body. unfold add_comment. rewrite bind_raise with (e := e).
      * rewrite Hres by reflexivity. reflexivity.
      * rewrite Hres by reflexivity. reflexivity.
Qed.


(** *** The identifier search of [update] and [add_comment] *)

Lemma find_issue_id_skip ticket_id node nodes :
  is_dict node -> ~ has_identifier ticket_id node ->
  find_issue_id ticket_id (node :: nodes) = find_issue_id ticket_id nodes.
Proof.
  intros [m ->] Hno. simpl.
  destruct (py_eq_str _ ticket_id) eqn:E; [|reflexivity].
  apply identifier_test in E. exfalso. apply Hno. exists m. auto.
Qed.

Lemma find_issue_id_none ticket_id nodes :
  Forall is_dict nodes ->
  Forall (fun n => ~ has_identifier ticket_id n) nodes ->
  find_issue_id ticket_id nodes = Ok JNull.
Proof.
  induction 1 as [|n nodes Hn Hd IH]; intros Hno; [reflexivity|].
  inversion Hno; subst.
  rewrite find_issue_id_skip by assumption. auto.
Qed.

Lemma find_issue_id_first ticket_id pre (m : gmap string json) post :
  Forall is_dict pre ->
  Forall (fun n => ~ has_identifier ticket_id n) pre ->
  m !! "identifier" = Some (JStr ticket_id) ->
  find_issue_id ticket_id (pre ++ JObj m :: post)
  = Ok (default JNull (m !! "id")).
Proof.
  intros Hd Hno Hid. induction pre as [|n pre IH].
  - simpl. apply identifier_test in Hid. rewrite Hid. reflexivity.
  - inversion Hd; inversion Hno; subst.
    change ((n :: pre) ++ JObj m :: post)%list
      with (n :: (pre ++ JObj m :: post))%list.
    rewrite find_issue_id_skip by assumption. auto.
Qed.

Lemma resolve_issue_id_eq self query ticket_id sent
    (body : gmap string json) nodes :
  remote sent (search_request self query ticket_id) = HttpOk (JObj body) ->
  body !! "errors" = None ->
  search_nodes (JObj body) = Ok (JList nodes) ->
  resolve_issue_id self query ticket_id sent =
    (rbind (find_issue_id ticket_id nodes)
       (fun issue_id =>
          if negb (truthy issue_id) then Raise (not_found ticket_id)
          else Ok issue_id),
     (sent ++ [search_request self query ticket_id])%list).
Proof.
  intros Hr He Hn. unfold resolve_issue_id, bind.
  rewrite graphql_request_eq.
  fold (search_request self query ticket_id).
  rewrite Hr. simpl decode. rewrite (check_errors_clean body He).
  unfold lift. rewrite Hn. reflexivity.
Qed.

(** X8. Against a search response whose nodes are objects, [update]
    takes the internal id of the first node whose identifier is exactly
    [ticket_id]. Without such a node, or when that node has no [id] or a
    falsy one, it raises the not-found error and sends no mutation, later
    matching nodes notwithstanding; otherwise the mutation carries that
    id. *)
Theorem update_resolves_first_match self ticket_id fields sent
    (body : gmap string json) nodes :
  remote sent (search_request self update_query ticket_id)
    = HttpOk (JObj body) ->
  body !! "errors" = None ->
  search_nodes (JObj body) = Ok (JList nodes) ->
  Forall is_dict nodes ->
  (Forall (fun n => ~ has_identifier ticket_id n) nodes ->
   update self ticket_id fields sent
   = (Raise (not_found ticket_id),
      (sent ++ [search_request self update_query ticket_id])%list)) /\
  (forall pre (m : gmap string json) post,
      nodes = (pre ++ JObj m :: post)%list ->
      Forall (fun n => ~ has_identifier ticket_id n) pre ->
      m !! "identifier" = Some (JStr ticket_id) ->
      (truthy (default JNull (m !! "id")) = false ->
       update self ticket_id fields sent
       = (Raise (not_found ticket_id),
          (sent ++ [search_request self update_query ticket_id])%list)) /\
      (truthy (default JNull (m !! "id")) = true ->
       snd (update self ticket_id fields sent)
       = (sent ++ [search_request self update_query ticket_id;
                   build_request self update_mutation
                     (Some {[ "id" := default JNull (m !! "id");
                              "input" :=
                                JObj (update_issue_input fields) ]})])%list)).
Proof.
  intros Hr He Hn Hd.
  pose proof (resolve_issue_id_eq _ _ _ _ _ _ Hr He Hn) as Hres.
  split.
  - intros Hno. rewrite (find_issue_id_none _ _ Hd Hno) in Hres.
    simpl in Hres. unfold update, bind. rewrite Hres. reflexivity.
  - intros pre m post -> Hno Hid.
    apply Forall_app in Hd as [Hpre _].
    rewrite (find_issue_id_first _ _ _ _ Hpre Hno Hid) in Hres.
    simpl in Hres. split; intros Ht; rewrite Ht in Hres; simpl in Hres;
      unfold update, bind; rewrite Hres.
    + reflexivity.
    + rewrite graphql_request_eq. destruct (decode _); simpl;
        rewrite <- app_assoc; reflexivity.
Qed.

(** *** The success flag of the mutations *)

(** X9. Once the identifier search has resolved the internal id and the
    remote has answered the update mutation without errors, [update]
    returns when the [success] flag of the answer is truthy and raises
    "Failed to update ticket ..." when the flag is falsy or missing, or
    when the answer has no [data] at all. *)
Theorem update_success_flag self ticket_id fields sent issue_id sent1
    (body : gmap string json) :
  resolve_issue_id self update_query ticket_id sent
    = (Ok issue_id, sent1) ->
  remote sent1
    (build_request self update_mutation
       (Some {[ "id" := issue_id;
                "input" := JObj (update_issue_input fields) ]}))
    = HttpOk (JObj body) ->
  body !! "errors" = None ->
  (forall (d u : gmap string json),
      body !! "data" = Some (JObj d) ->
      d !! "issueUpdate" = Some (JObj u) ->
      fst (update self ticket_id fields sent)
      = if truthy (default JNull (u !! "success")) then Ok tt
        else Raise (Exception ("Failed to update ticket " ++ ticket_id)))
  /\
  (body !! "data" = None ->
   fst (update self ticket_id fields sent)
   = Raise (Exception ("Failed to update ticket " ++ ticket_id))).
Proof.
  intros Hres Hr He.
  assert (Hupd : fst (update self ticket_id fields sent)
            = let? d := py_get (JObj body) "data" (JObj ∅) in
              let? data := py_get d "issueUpdate" (JObj ∅) in
              let? success := py_get data "success" JNull in
              if negb (truthy success)
              then Raise (Exception ("Failed to update ticket "
                                       ++ ticket_id))
              else Ok tt).
  { unfold update, bind. rewrite Hres. rewrite graphql_request_eq.
    rewrite Hr. simpl decode. rewrite (check_errors_clean body He).
    reflexivity. }
  rewrite Hupd. split.
  - intros d u Hd Hu. simpl. rewrite Hd. simpl. rewrite Hu. simpl.
    destruct (truthy _); reflexivity.
  - intros Hd. simpl. rewrite Hd. reflexivity.
Qed.

Lemma add_comment_trace self ticket_id body sent sent2 :
  add_comment self ticket_id body sent = (Ok tt, sent2) ->
  exists issue_id,
    sent2 = (sent ++ [search_request self add_comment_query ticket_id;
                      build_request self add_comment_mutation
                        (Some {[ "input" :=
                                   JObj {[ "issueId" := issue_id;
                                           "body" := JStr body ]} ]})
                     ])%list.
Proof.
  unfold add_comment, bind. intros H.
  pose proof (resolve_issue_id_trace self add_comment_query ticket_id sent)
    as Ht.
  destruct (resolve_issue_id self add_comment_query ticket_id sent)
    as [[issue_id|e] sent1]; [|discriminate H].
  simpl in Ht. subst sent1. exists issue_id.
  rewrite graphql_request_eq in H.
  destruct (decode _); simpl in H; [|discriminate H].
  unfold lift in H. injection H as _ <-.
  rewrite <- app_assoc. reflexivity.
Qed.

(** X10. Once its identifier search has resolved the internal id,
    [add_comment] sends the comment-creation mutation with that id as
    [issueId] and the body as given; answered without errors, it returns
    when the [success] flag of the answer is truthy and raises "Failed to
    add comment to ticket ..." otherwise. *)
Theorem add_comment_outcome self ticket_id body sent issue_id sent1 :
  resolve_issue_id self add_comment_query ticket_id sent
    = (Ok issue_id, sent1) ->
  snd (add_comment self ticket_id body sent)
  = (sent1 ++ [build_request self add_comment_mutation
                 (Some {[ "input" :=
                            JObj {[ "issueId" := issue_id;
                                    "body" := JStr body ]} ]})])%list /\
  (forall (answer d c : gmap string json),
      remote sent1
        (build_request self add_comment_mutation
           (Some {[ "input" :=
                      JObj {[ "issueId" := issue_id;
                              "body" := JStr body ]} ]}))
        = HttpOk (JObj answer) ->
      answer !! "errors" = None ->
      answer !! "data" = Some (JObj d) ->
      d !! "commentCreate" = Some (JObj c) ->
      fst (add_comment self ticket_id body sent)
      = if truthy (default JNull (c !! "success")) then Ok tt
        else Raise (Exception ("Failed to add comment to ticket "
                                 ++ ticket_id))).
Proof.
  intros Hres. unfold add_comment, bind. rewrite Hres.
  rewrite graphql_request_eq. split.
  - destruct (decode _); reflexivity.
  - intros answer d c Hr He Hd Hc. rewrite Hr. simpl decode.
    rewrite (check_errors_clean answer He). simpl.
    rewrite Hd. simpl. rewrite Hc. simpl.
    destruct (truthy _); reflexivity.
Qed.

(** *** create *)

(** X11. Answered without errors, [create] raises "Failed to create Linear
    issue" when the [success] flag of the answer is falsy or missing;
    when it is truthy, [create] returns the [identifier] of the created
    issue, its [id] when it has no identifier, and the empty string when
    it has neither or the answer carries no issue. *)
Theorem create_returns_identifier self title description team_id'
    project_id priority labels kwargs sent (body d c : gmap string json) :
  remote sent
    (build_request self create_mutation
       (Some {[ "input" :=
                  JObj (create_issue_input self title description team_id'
                          project_id priority labels kwargs) ]}))
    = HttpOk (JObj body) ->
  body !! "errors" = None ->
  body !! "data" = Some (JObj d) ->
  d !! "issueCreate" = Some (JObj c) ->
  (truthy (default JNull (c !! "success")) = false ->
   fst (create self title description team_id' project_id priority labels
          kwargs sent)
   = Raise (Exception "Failed to create Linear issue")) /\
  (truthy (default JNull (c !! "success")) = true ->
   (c !! "issue" = None ->
    fst (create self title description team_id' project_id priority labels
           kwargs sent) = Ok (JStr "")) /\
   (forall issue : gmap string json,
       c !! "issue" = Some (JObj issue) ->
       fst (create self title description team_id' project_id priority
              labels kwargs sent)
       = Ok (match issue !! "identifier", issue !! "id" with
             | Some identifier, _ => identifier
             | None, Some internal => internal
             | None, None => JStr ""
             end))).
Proof.
  intros Hr He Hd Hc. unfold create, bind. rewrite graphql_request_eq.
  rewrite Hr. simpl decode. rewrite (check_errors_clean body He). simpl.
  rewrite Hd. simpl. rewrite Hc. simpl. split.
  - intros ->. reflexivity.
  - intros ->. simpl. split.
    + intros Hi. rewrite Hi. reflexivity.
    + intros issue Hi. rewrite Hi. simpl.
      destruct (issue !! "identifier"), (issue !! "id"); reflexivity.
Qed.


Lemma truthy_str (s : string) : s <> "" -> truthy (JStr s) = true.
Proof. intros H. simpl. apply negb_true_iff, String.eqb_neq, H. Qed.

Lemma truthy_strs (l : list string) :
  l <> [] -> truthy (JList (JStr <$> l)) = true.
Proof. destruct l; [congruence | reflexivity]. Qed.

(** The input of [create] under a key, from the input made of the
    parameters alone and the keyword of that name. *)
Lemma create_issue_input_lookup self title description team_id'
    project_id priority labels (kwargs : gmap string json) k :
  create_issue_input self title description team_id' project_id priority
    labels kwargs !! k =
    match kwargs !! k with
    | Some JNull | None =>
        create_issue_input self title description team_id' project_id
          priority labels ∅ !! k
    | Some v => Some v
    end.
Proof.
  unfold create_issue_input. rewrite fold_add_kwarg_lookup.
  rewrite map_fold_empty. reflexivity.
Qed.

(** X12. With no extra keyword under a name of the remote schema that
    [create] fills itself, the creation input holds the title, the team
    given or else the team of the adapter, and each of description,
    project and labels that is not empty, under the names [title],
    [teamId], [description], [projectId] and [labelIds]. Whatever the
    keywords, the input has no key besides those names, [priority] and
    the keywords that are not None. *)
Theorem create_input_fields self title description team_id' project_id
    priority labels (kwargs : gmap string json) :
  ((forall k, k ∈ create_names -> kwargs !! k = None) ->
   let input :=
     create_issue_input self title description team_id' project_id
       priority labels kwargs in
   input !! "title" = Some (JStr title) /\
   (team_id' = None \/ team_id' = Some "" ->
    input !! "teamId" = Some (JStr (team_id self))) /\
   (forall t, team_id' = Some t -> t <> "" ->
      input !! "teamId" = Some (JStr t)) /\
   (forall d, description = Some d -> d <> "" ->
      input !! "description" = Some (JStr d)) /\
   (forall p, project_id = Some p -> p <> "" ->
      input !! "projectId" = Some (JStr p)) /\
   (forall l, labels = Some l -> l <> [] ->
      input !! "labelIds" = Some (JList (JStr <$> l)))) /\
  (forall k,
     is_Some (create_issue_input self title description team_id'
                project_id priority labels kwargs !! k) ->
     k ∈ create_names \/ exists v, kwargs !! k = Some v /\ v <> JNull).
Proof.
  split.
  - intros Hk input. subst input.
    assert (Hin : forall k, k ∈ create_names ->
              create_issue_input self title description team_id'
                project_id priority labels kwargs !! k
              = create_issue_input self title description team_id'
                  project_id priority labels ∅ !! k).
    { intros k Hin. rewrite create_issue_input_lookup, (Hk k Hin).
      reflexivity. }
    unfold create_names in Hin.
    rewrite !Hin by (rewrite !elem_of_cons; auto 10).
    clear Hin Hk. unfold create_issue_input. rewrite map_fold_empty.
    repeat split.
    + destruct description as [d|]; [destruct (truthy (JStr d))|];
        destruct priority as [p|];
        (destruct project_id as [q|]; [destruct (truthy (JStr q))|]);
        (destruct labels as [l|]; [destruct (truthy (JList (JStr <$> l)))|]);
        simplify_map_eq; reflexivity.
    + intros Ht.
      assert (E : match team_id' with
                  | Some t => if truthy (JStr t) then t else team_id self
                  | None => team_id self
                  end = team_id self)
        by (destruct Ht as [-> | ->]; reflexivity).
      rewrite E.
      destruct description as [d|]; [destruct (truthy (JStr d))|];
        destruct priority as [p|];
        (destruct project_id as [q|]; [destruct (truthy (JStr q))|]);
        (destruct labels as [l|]; [destruct (truthy (JList (JStr <$> l)))|]);
        simplify_map_eq; reflexivity.
    + intros t -> Ht. rewrite (truthy_str t Ht).
      destruct description as [d|]; [destruct (truthy (JStr d))|];
        destruct priority as [p|];
        (destruct project_id as [q|]; [destruct (truthy (JStr q))|]);
        (destruct labels as [l|]; [destruct (truthy (JList (JStr <$> l)))|]);
        simplify_map_eq; reflexivity.
    + intros d -> Hd. rewrite (truthy_str d Hd).
      destruct priority as [p|];
        (destruct project_id as [q|]; [destruct (truthy (JStr q))|]);
        (destruct labels as [l|]; [destruct (truthy (JList (JStr <$> l)))|]);
        simplify_map_eq; reflexivity.
    + intros p -> Hp. rewrite (truthy_str p Hp).
      destruct description as [d|]; [destruct (truthy (JStr d))|];
        destruct priority as [z|];
        (destruct labels as [l|]; [destruct (truthy (JList (JStr <$> l)))|]);
        simplify_map_eq; reflexivity.
    + intros l -> Hl. rewrite (truthy_strs l Hl).
      destruct description as [d|]; [destruct (truthy (JStr d))|];
        destruct priority as [z|];
        (destruct project_id as [q|]; [destruct (truthy (JStr q))|]);
        simplify_map_eq; reflexivity.
  - intros k. rewrite create_issue_input_lookup.
    destruct (kwargs !! k) as [v|] eqn:Ek.
    + destruct (decide (k ∈ create_names)) as [|Hout]; [auto|].
      destruct v; try (intros _; right; eexists; split;
                       [reflexivity | discriminate]).
      intros Hsome. exfalso. revert Hsome.
      unfold create_names in Hout. rewrite !not_elem_of_cons in Hout.
      destruct Hout as (? & ? & ? & ? & ? & ? & _).
      unfold create_issue_input. rewrite map_fold_empty.
      destruct description as [d|]; [destruct (truthy (JStr d))|];
        destruct priority as [z|];
        (destruct project_id as [q|]; [destruct (truthy (JStr q))|]);
        (destruct labels as [l|]; [destruct (truthy (JList (JStr <$> l)))|]);
        simplify_map_eq; intros [x Hx]; discriminate Hx.
    + destruct (decide (k ∈ create_names)) as [|Hout]; [auto|].
      intros Hsome. exfalso. revert Hsome.
      unfold create_names in Hout. rewrite !not_elem_of_cons in Hout.
      destruct Hout as (? & ? & ? & ? & ? & ? & _).
      unfold create_issue_input. rewrite map_fold_empty.
      destruct description as [d|]; [destruct (truthy (JStr d))|];
        destruct priority as [z|];
        (destruct project_id as [q|]; [destruct (truthy (JStr q))|]);
        (destruct labels as [l|]; [destruct (truthy (JList (JStr <$> l)))|]);
        simplify_map_eq; intros [x Hx]; discriminate Hx.
Qed.


(** *** transition, step by step *)

Lemma sent_query_search self query term :
  sent_query (search_request self query term) = Some query.
Proof. apply sent_query_build. Qed.

(** The steps of a transition that returns, with what each one sent. *)
Lemma transition_steps self ticket_id to_status note blocked_by sent tr
    sent' :
  transition self ticket_id to_status note blocked_by sent
    = (Ok tr, sent') ->
  exists state_id updated_id,
    let sent2 :=
      (sent ++ [search_request self get_query ticket_id;
                search_request self update_query ticket_id;
                build_request self update_mutation
                  (Some {[ "id" := updated_id;
                           "input" :=
                             JObj {[ "stateId" := JStr state_id ]} ]})])%list
    in
    _resolve_state_id self to_status = Ok state_id /\
    ((note = None \/ note = Some "") /\ sent' = sent2 \/
     exists n issue_id,
       note = Some n /\ n <> "" /\
       sent' = (sent2
                ++ [search_request self add_comment_query ticket_id;
                    build_request self add_comment_mutation
                      (Some {[ "input" :=
                                 JObj {[ "issueId" := issue_id;
                                         "body" := JStr n ]} ]})])%list).
Proof.
  unfold transition, bind, lift, ret. intros H.
  pose proof (get_trace self ticket_id sent) as Hg.
  destruct (get self ticket_id sent) as [[current|e] sent1];
    [|discriminate H].
  simpl in Hg. subst sent1.
  destruct (_resolve_state_id self to_status) as [state_id|e];
    [|discriminate H].
  destruct (update self ticket_id {[ "state_id" := JStr state_id ]} _)
    as [[[]|e] sent2] eqn:Hupd; [|discriminate H].
  apply update_trace in Hupd as [updated_id ->].
  assert (Hu : update_issue_input {[ "state_id" := JStr state_id ]}
               = {[ "stateId" := JStr state_id ]}).
  { unfold update_issue_input, copy_field. simplify_map_eq. reflexivity. }
  rewrite Hu in H. rewrite <- app_assoc in H. simpl app in H.
  exists state_id, updated_id. simpl. split; [reflexivity|].
  destruct note as [n|].
  - destruct (String.eqb n "") eqn:En; simpl in H; rewrite En in H;
      simpl in H.
    + apply String.eqb_eq in En. subst n. left.
      injection H as _ <-. auto.
    + apply String.eqb_neq in En. right.
      destruct (add_comment self ticket_id n _) as [[[]|e] sent3] eqn:Hc;
        [|discriminate H].
      apply add_comment_trace in Hc as [issue_id ->].
      injection H as _ <-. exists n, issue_id. auto.
  - left. injection H as _ <-. auto.
Qed.

(** X13. A transition that returns has sent three requests when no note
    or the empty note was given: the search of [get], then the identifier
    search and the mutation of [update]; and five when a non-empty note
    was given: those three, then the identifier search and the mutation of
    [add_comment]. *)
Theorem transition_requests self ticket_id to_status note blocked_by sent
    tr sent' :
  transition self ticket_id to_status note blocked_by sent
    = (Ok tr, sent') ->
  exists new,
    sent' = (sent ++ new)%list /\
    (note = None \/ note = Some "" ->
     sent_query <$> new
     = [Some get_query; Some update_query; Some update_mutation]) /\
    (forall n, note = Some n -> n <> "" ->
     sent_query <$> new
     = [Some get_query; Some update_query; Some update_mutation;
        Some add_comment_query; Some add_comment_mutation]).
Proof.
  intros H. apply transition_steps in H
    as (state_id & updated_id & _ & [[Hnote ->] | Hnote]).
  - eexists. split; [reflexivity|]. split.
    + intros _. simpl. rewrite !sent_query_search, sent_query_build.
      reflexivity.
    + intros n Hn Hne. destruct Hnote as [Hnote|Hnote];
        rewrite Hnote in Hn; congruence.
  - destruct Hnote as (n & issue_id & -> & Hne & ->).
    rewrite <- app_assoc. eexists. split; [reflexivity|]. split.
    + intros [Hn|Hn]; congruence.
    + intros n' _ _. simpl.
      rewrite !sent_query_search, !sent_query_build. reflexivity.
Qed.

(** X14. The result of a transition carries the ticket identifier and the
    target status as they were given (the token, not the state id it was
    resolved to), no elapsed time, and one of the three event types; the
    state sent to the remote is the resolved one. *)
Theorem transition_result_fields self ticket_id to_status note blocked_by
    sent tr sent' :
  transition self ticket_id to_status note blocked_by sent
    = (Ok tr, sent') ->
  TransitionResult.ticket_id tr = ticket_id /\
  TransitionResult.new_status tr = to_status /\
  TransitionResult.elapsed_minutes tr = None /\
  TransitionResult.event_type tr ∈ event_types /\
  exists state_id req,
    _resolve_state_id self to_status = Ok state_id /\
    req ∈ sent' /\
    sent_query req = Some update_mutation /\
    sent_input req = Some {[ "stateId" := JStr state_id ]}.
Proof.
  intros H. pose proof H as Hsteps.
  apply transition_inv in H
    as (current & sent1 & state_id & sent2 & _ & Hres & _ & ->).
  simpl. repeat split.
  - unfold event_type_of, event_types.
    destruct (_ || _); [|destruct (_ && _)];
      rewrite !elem_of_cons; auto.
  - apply transition_steps in Hsteps
      as (state_id' & updated_id & Hres' & Hsent).
    simpl in Hsent. rewrite Hres in Hres'. injection Hres' as <-.
    exists state_id,
      (build_request self update_mutation
         (Some {[ "id" := updated_id;
                  "input" := JObj {[ "stateId" := JStr state_id ]} ]})).
    split; [exact Hres|]. split; [|split].
    + destruct Hsent as [[_ ->] | (n & issue_id & _ & _ & ->)];
        rewrite ?elem_of_app, !elem_of_cons; auto 10.
    + apply sent_query_build.
    + unfold sent_input. rewrite sent_variables_build.
      * simplify_map_eq. reflexivity.
      * apply insert_non_empty.
Qed.

(** X15. The steps of a transition fail in their order: when [get] fails,
    the transition raises its exception, be the target status resolvable
    or not; when [get] returns and the target status does not resolve, the
    transition raises the error of the resolution after the one request of
    [get], and no update is sent. *)
Theorem transition_failure_order self ticket_id to_status note blocked_by
    sent :
  (forall e, fst (get self ticket_id sent) = Raise e ->
     transition self ticket_id to_status note blocked_by sent
     = (Raise e,
        (sent ++ [search_request self get_query ticket_id])%list)) /\
  (forall current e,
     fst (get self ticket_id sent) = Ok current ->
     _resolve_state_id self to_status = Raise e ->
     transition self ticket_id to_status note blocked_by sent
     = (Raise e,
        (sent ++ [search_request self get_query ticket_id])%list)).
Proof.
  pose proof (get_trace self ticket_id sent) as Hg. split.
  - intros e He. unfold transition.
    rewrite (bind_raise _ _ _ _ He), Hg. reflexivity.
  - intros current e Hc He. unfold transition, bind, lift.
    destruct (get self ticket_id sent) as [r sent1]. simpl in Hc, Hg.
    subst r sent1. rewrite He. reflexivity.
Qed.

(** X16. A failure of the comment leaves the update done: in a transition
    with a non-empty note whose fetch, resolution and update succeed, a
    failure of [add_comment] is the failure of the transition, and the
    update mutation with the resolved state had been sent before. *)
Theorem transition_comment_failure self ticket_id to_status note
    blocked_by sent current sent1 state_id sent2 e :
  note <> "" ->
  get self ticket_id sent = (Ok current, sent1) ->
  _resolve_state_id self to_status = Ok state_id ->
  update self ticket_id {[ "state_id" := JStr state_id ]} sent1
    = (Ok tt, sent2) ->
  fst (add_comment self ticket_id note sent2) = Raise e ->
  fst (transition self ticket_id to_status (Some note) blocked_by sent)
  = Raise e /\
  exists updated_id later,
    snd (transition self ticket_id to_status (Some note) blocked_by sent)
    = (sent1
       ++ [search_request self update_query ticket_id;
           build_request self update_mutation
             (Some {[ "id" := updated_id;
                      "input" := JObj {[ "stateId" := JStr state_id ]} ]})]
       ++ later)%list.
Proof.
  intros Hnote Hget Hres Hupd Hc.
  destruct (update_trace _ _ _ _ _ Hupd) as [updated_id Hs2].
  assert (Hu : update_issue_input {[ "state_id" := JStr state_id ]}
               = {[ "stateId" := JStr state_id ]}).
  { unfold update_issue_input, copy_field. simplify_map_eq. reflexivity. }
  rewrite Hu in Hs2.
  destruct (sends_add_comment self ticket_id note sent2)
    as (later & Hlater & _ & _).
  unfold transition, bind, lift. rewrite Hget, Hres, Hupd.
  rewrite (truthy_str note Hnote).
  destruct (add_comment self ticket_id note sent2) as [[[]|e'] sent3];
    simpl in Hc, Hlater; [discriminate Hc|].
  injection Hc as ->. simpl. split; [reflexivity|].
  exists updated_id, later. rewrite Hlater, Hs2, <- app_assoc. reflexivity.
Qed.


(** *** The fields of a parsed record *)

(** What [_parse_ticket] computes, step by step. *)
Lemma parse_ticket_Ok (issue : gmap string json) (t : ticket) :
  _parse_ticket (JObj issue) = Ok t <->
  exists priority label_nodes labels created_at modified_at status project
         assignee,
    priority_map_get (default (JInt 0) (issue !! "priority")) = Ok priority /\
    rbind (py_get (default (JObj ∅) (issue !! "labels")) "nodes" (JList []))
      py_iter = Ok label_nodes /\
    mapR (fun label => py_getitem label "name") label_nodes = Ok labels /\
    parse_timestamp (default JNull (issue !! "createdAt")) = Ok created_at /\
    parse_timestamp (default JNull (issue !! "updatedAt")) = Ok modified_at /\
    py_get (default (JObj ∅) (issue !! "state")) "name" (JStr "")
      = Ok status /\
    nested_name (JObj issue) "project" = Ok project /\
    nested_name (JObj issue) "assignee" = Ok assignee /\
    t = TicketRecord.mk
          (default (default (JStr "") (issue !! "id"))
             (issue !! "identifier"))
          (default (JStr "") (issue !! "title"))
          (default JNull (issue !! "description"))
          status priority project assignee labels created_at modified_at.
Proof.
  unfold _parse_ticket. cbn [py_get rbind]. split.
  - intros H.
    destruct (priority_map_get _) as [priority|] eqn:E1;
      cbn [rbind] in H; [|discriminate H].
    destruct (py_get (default (JObj ∅) (issue !! "labels")) "nodes" _)
      as [nodes_v|] eqn:E2; cbn [rbind] in H; [|discriminate H].
    destruct (py_iter nodes_v) as [label_nodes|] eqn:E3;
      cbn [rbind] in H; [|discriminate H].
    destruct (mapR _ label_nodes) as [labels|] eqn:E4;
      cbn [rbind] in H; [|discriminate H].
    destruct (parse_timestamp (default JNull (issue !! "createdAt")))
      as [created_at|] eqn:E5; cbn [rbind] in H; [|discriminate H].
    destruct (parse_timestamp (default JNull (issue !! "updatedAt")))
      as [modified_at|] eqn:E6; cbn [rbind] in H; [|discriminate H].
    destruct (py_get (default (JObj ∅) (issue !! "state")) "name" _)
      as [status|] eqn:E7; cbn [rbind] in H; [|discriminate H].
    destruct (nested_name (JObj issue) "project") as [project|] eqn:E8;
      cbn [rbind] in H; [|discriminate H].
    destruct (nested_name (JObj issue) "assignee") as [assignee|] eqn:E9;
      cbn [rbind] in H; [|discriminate H].
    injection H as <-.
    exists priority, label_nodes, labels, created_at, modified_at, status,
      project, assignee.
    cbn [rbind]. rewrite E3. auto 10.
  - intros (priority & label_nodes & labels & created_at & modified_at
            & status & project & assignee
            & E1 & E2 & E3 & E4 & E5 & E6 & E7 & E8 & ->).
    rewrite E1. cbn [rbind].
    destruct (py_get (default (JObj ∅) (issue !! "labels")) "nodes" _)
      as [nodes_v|]; cbn [rbind] in E2 |- *; [|discriminate E2].
    rewrite E2. cbn [rbind]. rewrite E3. cbn [rbind].
    rewrite E4. cbn [rbind]. rewrite E5. cbn [rbind].
    rewrite E6. cbn [rbind]. rewrite E7. cbn [rbind].
    rewrite E8. reflexivity.
Qed.

(** X17. The identifier of a parsed record is the [identifier] of the
    issue, whatever its value; the [id] of the issue when it has no
    [identifier]; the empty string when it has neither. The title and the
    status default to the empty string and the description to None when
    the field is missing; the status is the [name] of the [state]
    object. *)
Theorem parse_ticket_identity (issue : gmap string json) (t : ticket) :
  _parse_ticket (JObj issue) = Ok t ->
  (forall v, issue !! "identifier" = Some v -> TicketRecord.id t = v) /\
  (issue !! "identifier" = None ->
   forall v, issue !! "id" = Some v -> TicketRecord.id t = v) /\
  (issue !! "identifier" = None -> issue !! "id" = None ->
   TicketRecord.id t = JStr "") /\
  TicketRecord.title t = default (JStr "") (issue !! "title") /\
  TicketRecord.description t = default JNull (issue !! "description") /\
  (issue !! "state" = None -> TicketRecord.status t = JStr "") /\
  (forall state : gmap string json,
     issue !! "state" = Some (JObj state) ->
     TicketRecord.status t = default (JStr "") (state !! "name")).
Proof.
  intros H. apply parse_ticket_Ok in H
    as (priority & label_nodes & labels & created_at & modified_at
        & status & project & assignee
        & _ & _ & _ & _ & _ & Hstate & _ & _ & ->).
  simpl. repeat split.
  - intros v ->. reflexivity.
  - intros -> v ->. reflexivity.
  - intros -> ->. reflexivity.
  - intros Hs. rewrite Hs in Hstate. simpl in Hstate.
    rewrite lookup_empty in Hstate. simpl in Hstate. congruence.
  - intros state Hs. rewrite Hs in Hstate. simpl in Hstate. congruence.
Qed.


Lemma mapR_names nodes labels :
  mapR (fun label => py_getitem label "name") nodes = Ok labels <->
  Forall2 has_name nodes labels.
Proof.
  rewrite mapR_Ok. split; intros H; induction H; constructor; auto.
  - destruct x; simpl in *; try discriminate.
    destruct (m !! "name") eqn:E; [|discriminate].
    exists m. split; congruence.
  - destruct H as (m & -> & Hm). simpl. rewrite Hm. reflexivity.
Qed.

Lemma mapR_names_missing pre (m : gmap string json) post :
  Forall (fun node => exists name, has_name node name) pre ->
  m !! "name" = None ->
  mapR (fun label => py_getitem label "name") (pre ++ JObj m :: post)
  = Raise (KeyError "name").
Proof.
  intros Hpre Hm. induction Hpre as [|n pre (name & o & -> & Ho) _ IH].
  - simpl. rewrite Hm. reflexivity.
  - simpl. rewrite Ho. simpl.
    change (mapR (fun label => py_getitem label "name")
              (pre ++ JObj m :: post)%list = Raise (KeyError "name")) in IH.
    rewrite IH. reflexivity.
Qed.

(** X18. The labels of a parsed record are the [name] of every label
    node of the issue, in the order of the nodes, and the empty list when
    the issue has no [labels]. A label node without a [name] makes the
    parsing raise [KeyError] for "name". *)
Theorem parse_ticket_labels (issue : gmap string json) :
  (forall t, _parse_ticket (JObj issue) = Ok t ->
     (issue !! "labels" = None -> TicketRecord.labels t = []) /\
     (forall (labels : gmap string json) nodes,
        issue !! "labels" = Some (JObj labels) ->
        labels !! "nodes" = Some (JList nodes) ->
        Forall2 has_name nodes (TicketRecord.labels t))) /\
  (forall priority (labels : gmap string json) pre (m : gmap string json)
          post,
     priority_map_get (default (JInt 0) (issue !! "priority")) = Ok priority ->
     issue !! "labels" = Some (JObj labels) ->
     labels !! "nodes" = Some (JList (pre ++ JObj m :: post)) ->
     Forall (fun node => exists name, has_name node name) pre ->
     m !! "name" = None ->
     _parse_ticket (JObj issue) = Raise (KeyError "name")).
Proof.
  split.
  - intros t H. apply parse_ticket_Ok in H
      as (priority & label_nodes & labels & created_at & modified_at
          & status & project & assignee
          & _ & Hnodes & Hlabels & _ & _ & _ & _ & _ & ->).
    simpl. split.
    + intros Hl. rewrite Hl in Hnodes. simpl in Hnodes.
      rewrite lookup_empty in Hnodes. simpl in Hnodes.
      injection Hnodes as <-. simpl in Hlabels. congruence.
    + intros lo nodes Hl Hn. rewrite Hl in Hnodes. simpl in Hnodes.
      rewrite Hn in Hnodes. simpl in Hnodes. injection Hnodes as <-.
      apply mapR_names, Hlabels.
  - intros priority lo pre m post Hp Hl Hn Hpre Hm.
    unfold _parse_ticket. cbn [py_get rbind]. rewrite Hp. cbn [rbind].
    rewrite Hl. simpl default. cbn [py_get rbind]. rewrite Hn.
    simpl default. cbn [py_iter rbind].
    rewrite (mapR_names_missing _ _ _ Hpre Hm). reflexivity.
Qed.

Lemma nested_name_Ok (issue : gmap string json) k v :
  nested_name (JObj issue) k = Ok v ->
  (truthy (default JNull (issue !! k)) = false -> v = JNull) /\
  (forall o : gmap string json,
     issue !! k = Some (JObj o) -> o <> ∅ ->
     v = default JNull (o !! "name")).
Proof.
  unfold nested_name. cbn [py_get rbind]. intros H. split.
  - intros Ht. rewrite Ht in H. congruence.
  - intros o Ho Hne. rewrite Ho in H. simpl default in H.
    assert (Ht : truthy (JObj o) = true).
    { simpl. apply negb_true_iff, Nat.eqb_neq. intros Hz.
      apply map_size_empty_inv in Hz. contradiction. }
    rewrite Ht in H. simpl in H. congruence.
Qed.

(** X19. The project of a parsed record is None when the [project] of the
    issue is missing, null or an empty object, and else the [name] of the
    project object, None when that has no name; the assignee likewise.
    Neither is ever defaulted to the empty string. *)
Theorem parse_ticket_optional_names (issue : gmap string json)
    (t : ticket) :
  _parse_ticket (JObj issue) = Ok t ->
  (truthy (default JNull (issue !! "project")) = false ->
   TicketRecord.project t = JNull) /\
  (forall o : gmap string json,
     issue !! "project" = Some (JObj o) -> o <> ∅ ->
     TicketRecord.project t = default JNull (o !! "name")) /\
  (truthy (default JNull (issue !! "assignee")) = false ->
   TicketRecord.assignee t = JNull) /\
  (forall o : gmap string json,
     issue !! "assignee" = Some (JObj o) -> o <> ∅ ->
     TicketRecord.assignee t = default JNull (o !! "name")).
Proof.
  intros H. apply parse_ticket_Ok in H
    as (priority & label_nodes & labels & created_at & modified_at
        & status & project & assignee
        & _ & _ & _ & _ & _ & _ & Hp & Ha & ->).
  simpl. apply nested_name_Ok in Hp as [Hp1 Hp2].
  apply nested_name_Ok in Ha as [Ha1 Ha2]. auto.
Qed.

Lemma replace_free c r s : free_of c s -> replace c r s = s.
Proof.
  unfold free_of. induction s as [|a s IH]; simpl; intros H.
  - reflexivity.
  - inversion H as [|? ? Ha Hs]; subst.
    apply Ascii.eqb_neq in Ha. rewrite Ha. rewrite IH by assumption.
    reflexivity.
Qed.

Lemma append_assoc_r (r s t : string) : (r ++ s) ++ t = r ++ (s ++ t).
Proof.
  induction r as [|b r IH]; [reflexivity|].
  rewrite !append_cons, IH. reflexivity.
Qed.

Lemma replace_app c r s t :
  replace c r (s ++ t) = replace c r s ++ replace c r t.
Proof.
  induction s as [|a s IH]; [reflexivity|].
  rewrite append_cons. simpl. destruct (Ascii.eqb a c).
  - rewrite IH. symmetry. apply append_assoc_r.
  - rewrite IH, append_cons. reflexivity.
Qed.

Lemma parse_timestamp_Ok v (stamp : option datetime) :
  parse_timestamp v = Ok stamp ->
  (truthy v = false -> stamp = None) /\
  (forall s, v = JStr s -> s <> "" ->
     exists d, fromisoformat (replace "Z"%char "+00:00" s) = inr d /\
               stamp = Some d).
Proof.
  unfold parse_timestamp. intros H. split.
  - intros Ht. rewrite Ht in H. congruence.
  - intros s -> Hs. rewrite (truthy_str s Hs) in H.
    destruct (fromisoformat _) as [msg|d]; [discriminate H|].
    exists d. split; congruence.
Qed.

(** X20. The creation time of a parsed record is absent when [createdAt]
    is missing, null or empty; else it is what [fromisoformat] makes of
    the text with every "Z" replaced by "+00:00", so that a text ending
    in its only "Z" is parsed with the offset "+00:00" in its place. The
    modification time is read from [updatedAt] in the same way. *)
Theorem parse_ticket_timestamps (issue : gmap string json) (t : ticket) :
  _parse_ticket (JObj issue) = Ok t ->
  (truthy (default JNull (issue !! "createdAt")) = false ->
   TicketRecord.created_at t = None) /\
  (forall s, issue !! "createdAt" = Some (JStr s) -> s <> "" ->
     exists d, fromisoformat (replace "Z"%char "+00:00" s) = inr d /\
               TicketRecord.created_at t = Some d) /\
  (forall s, issue !! "createdAt" = Some (JStr (s ++ "Z")) ->
     free_of "Z"%char s ->
     exists d, fromisoformat (s ++ "+00:00") = inr d /\
               TicketRecord.created_at t = Some d) /\
  (truthy (default JNull (issue !! "updatedAt")) = false ->
   TicketRecord.modified_at t = None) /\
  (forall s, issue !! "updatedAt" = Some (JStr s) -> s <> "" ->
     exists d, fromisoformat (replace "Z"%char "+00:00" s) = inr d /\
               TicketRecord.modified_at t = Some d).
Proof.
  intros H. apply parse_ticket_Ok in H
    as (priority & label_nodes & labels & created_at & modified_at
        & status & project & assignee
        & _ & _ & _ & Hc & Hm & _ & _ & _ & ->).
  simpl. apply parse_timestamp_Ok in Hc as [Hc1 Hc2].
  apply parse_timestamp_Ok in Hm as [Hm1 Hm2].
  split; [exact Hc1|]. split.
  { intros s Hs Hne. apply Hc2; [rewrite Hs; reflexivity | exact Hne]. }
  split.
  { intros s Hs Hfree.
    destruct (Hc2 (s ++ "Z")) as (d & Hd & Ht).
    - rewrite Hs. reflexivity.
    - destruct s; discriminate.
    - exists d. split; [|exact Ht].
      rewrite replace_app, (replace_free _ _ _ Hfree) in Hd. exact Hd. }
  split; [exact Hm1|].
  intros s Hs Hne. apply Hm2; [rewrite Hs; reflexivity | exact Hne].
Qed.

Lemma parse_timestamp_returns v :
  timestamp_ok fromisoformat v ->
  exists stamp, parse_timestamp (default JNull v) = Ok stamp.
Proof.
  unfold parse_timestamp.
  intros [-> | [-> | (s & -> & [-> | (d & Hd)])]]; simpl.
  - eexists. reflexivity.
  - eexists. reflexivity.
  - eexists. reflexivity.
  - destruct (negb (String.eqb s "")); [|eexists; reflexivity].
    rewrite Hd. eexists. reflexivity.
Qed.

Lemma nested_name_returns (issue : gmap string json) k :
  object_or_null (issue !! k) ->
  exists v, nested_name (JObj issue) k = Ok v.
Proof.
  unfold nested_name. cbn [py_get rbind].
  intros [-> | [-> | (m & ->)]]; simpl.
  - eexists. reflexivity.
  - eexists. reflexivity.
  - destruct (negb _); eexists; reflexivity.
Qed.

Lemma parse_ticket_well_formed (issue : gmap string json) :
  well_formed_issue fromisoformat issue ->
  exists t, _parse_ticket (JObj issue) = Ok t.
Proof.
  intros (Hp & Hl & Hc & Hu & Hs & Hpr & Ha).
  assert (E1 : exists priority,
            priority_map_get (default (JInt 0) (issue !! "priority"))
            = Ok priority).
  { destruct Hp as [-> | [z ->]]; simpl; eexists; reflexivity. }
  assert (E2 : exists labels,
            rbind (rbind (py_get (default (JObj ∅) (issue !! "labels"))
                            "nodes" (JList [])) py_iter)
              (mapR (fun label => py_getitem label "name")) = Ok labels).
  { destruct Hl as [-> | (lo & -> & [Hn | (nodes & Hn & Hall)])];
      simpl; rewrite ?lookup_empty, ?Hn; simpl.
    - eexists. reflexivity.
    - eexists. reflexivity.
    - assert (exists labels, Forall2 has_name nodes labels) as [labels Hl].
      { clear Hn. induction Hall as [|n nodes [name Hn] _ [labels IH]].
        - exists []. constructor.
        - exists (name :: labels). constructor; assumption. }
      exists labels. apply mapR_names, Hl. }
  assert (E7 : exists status,
            py_get (default (JObj ∅) (issue !! "state")) "name" (JStr "")
            = Ok status).
  { destruct Hs as [-> | [state ->]]; simpl; eexists; reflexivity. }
  destruct E1 as [priority E1]. destruct E2 as [labels E2].
  destruct (parse_timestamp_returns _ Hc) as [created_at E5].
  destruct (parse_timestamp_returns _ Hu) as [modified_at E6].
  destruct E7 as [status E7].
  destruct (nested_name_returns issue "project" Hpr) as [project E8].
  destruct (nested_name_returns issue "assignee" Ha) as [assignee E9].
  destruct (rbind (py_get (default (JObj ∅) (issue !! "labels")) "nodes"
                     (JList [])) py_iter) as [label_nodes|] eqn:E3;
    [|discriminate E2].
  simpl in E2.
  eexists. apply parse_ticket_Ok.
  exists priority, label_nodes, labels, created_at, modified_at, status,
    project, assignee.
  auto 10.
Qed.

(** X21. [_parse_ticket] returns a record for every well-formed issue:
    one whose priority is an integer, whose label nodes carry names,
    whose timestamps parse, and whose state, project and assignee are
    objects (project and assignee possibly null), each field possibly
    missing. *)
Theorem parse_ticket_returns (issue : gmap string json) :
  well_formed_issue fromisoformat issue ->
  exists t, _parse_ticket (JObj issue) = Ok t.
Proof. apply parse_ticket_well_formed. Qed.


(** *** list_tickets, further *)

Lemma mapR_Raise {A B} (f : A -> res B) pre x post e :
  Forall (fun y => exists b, f y = Ok b) pre ->
  f x = Raise e ->
  mapR f (pre ++ x :: post) = Raise e.
Proof.
  intros Hpre Hx. induction Hpre as [|y pre [b Hy] _ IH]; simpl.
  - rewrite Hx. reflexivity.
  - rewrite Hy. simpl.
    change (mapR f (pre ++ x :: post)%list = Raise e) in IH.
    rewrite IH. reflexivity.
Qed.

Lemma list_tickets_eq self filters sent (body : gmap string json) nodes :
  remote sent (search_request self list_tickets_graphql_query
                 (search_query filters)) = HttpOk (JObj body) ->
  body !! "errors" = None ->
  search_nodes (JObj body) = Ok (JList nodes) ->
  fst (list_tickets self filters sent) = mapR _parse_ticket nodes.
Proof.
  intros Hr He Hn. unfold list_tickets, bind. rewrite graphql_request_eq.
  fold (search_request self list_tickets_graphql_query
          (search_query filters)).
  rewrite Hr. simpl decode. rewrite (check_errors_clean body He).
  unfold lift. rewrite Hn. reflexivity.
Qed.

(** X22. [list_tickets] returns all the records or none: when a node of
    the response fails to parse, the call raises the exception of the
    first such node and returns no list of the nodes that did parse. *)
Theorem list_tickets_all_or_nothing self filters sent
    (body : gmap string json) pre node post e :
  remote sent (search_request self list_tickets_graphql_query
                 (search_query filters)) = HttpOk (JObj body) ->
  body !! "errors" = None ->
  search_nodes (JObj body) = Ok (JList (pre ++ node :: post)) ->
  Forall (fun n => exists t, _parse_ticket n = Ok t) pre ->
  _parse_ticket node = Raise e ->
  fst (list_tickets self filters sent) = Raise e.
Proof.
  intros Hr He Hn Hpre Hnode.
  rewrite (list_tickets_eq _ _ _ _ _ Hr He Hn).
  apply mapR_Raise; assumption.
Qed.

Lemma search_query_ignores filters k v :
  k ∉ filter_names ->
  search_query (<[k := v]> filters) = search_query filters.
Proof.
  intros Hk. unfold filter_names in Hk. rewrite !not_elem_of_cons in Hk.
  destruct Hk as (? & ? & ? & ? & _).
  unfold search_query, append_filter.
  rewrite !lookup_insert_ne by congruence. reflexivity.
Qed.

(** X23. A filter that is none of status, assignee, project and query has
    no effect on [list_tickets]; the match-all token is the search term
    when none of those four is given, and a free-text query given alone,
    be it empty, is the search term as it is. *)
Theorem list_tickets_filters self filters :
  (forall k v, k ∉ filter_names ->
     list_tickets self (<[k := v]> filters) = list_tickets self filters) /\
  ((forall k, k ∈ filter_names -> filters !! k = None) ->
   search_query filters = "*") /\
  (forall q, filters !! "status" = None -> filters !! "assignee" = None ->
     filters !! "project" = None -> filters !! "query" = Some q ->
     search_query filters = q).
Proof.
  split; [|split].
  - intros k v Hk. unfold list_tickets.
    rewrite (search_query_ignores _ _ _ Hk). reflexivity.
  - intros H. unfold search_query, append_filter, filter_names in *.
    rewrite !H by (rewrite !elem_of_cons; auto 10). reflexivity.
  - intros q Hs Ha Hp Hq. unfold search_query, append_filter.
    rewrite Hs, Ha, Hp, Hq. simpl. destruct q; reflexivity.
Qed.

Lemma search_nodes_missing (body : gmap string json) :
  no_nodes body -> search_nodes (JObj body) = Ok (JList []).
Proof.
  unfold search_nodes.
  intros [Hd | (data & Hd & [Hs | (found & Hs & Hn)])];
    simpl; rewrite Hd; simpl; rewrite ?lookup_empty, ?Hs; simpl;
    rewrite ?lookup_empty, ?Hn; reflexivity.
Qed.

(** X24. A response without errors that carries no search nodes (no
    [data], no [issueSearch] or no [nodes]) counts as an empty result:
    [get], [update] and [add_comment] raise the not-found error and
    [list_tickets] returns the empty list. A [data] that is null makes
    [get] raise an [AttributeError] instead. *)
Theorem missing_nodes_defaults self ticket_id sent
    (body : gmap string json) :
  body !! "errors" = None ->
  (no_nodes body ->
   (remote sent (search_request self get_query ticket_id)
      = HttpOk (JObj body) ->
    fst (get self ticket_id sent) = Raise (not_found ticket_id)) /\
   (remote sent (search_request self update_query ticket_id)
      = HttpOk (JObj body) ->
    (forall fields,
       fst (update self ticket_id fields sent)
       = Raise (not_found ticket_id)) /\
    (forall text,
       fst (add_comment self ticket_id text sent)
       = Raise (not_found ticket_id))) /\
   (forall filters,
      remote sent (search_request self list_tickets_graphql_query
                     (search_query filters)) = HttpOk (JObj body) ->
      fst (list_tickets self filters sent) = Ok [])) /\
  (body !! "data" = Some JNull ->
   remote sent (search_request self get_query ticket_id)
     = HttpOk (JObj body) ->
   fst (get self ticket_id sent) = Raise AttributeError).
Proof.
  intros He. split.
  - intros Hno. pose proof (search_nodes_missing body Hno) as Hn.
    split; [|split].
    + intros Hr. rewrite (get_eq _ _ _ _ _ Hr He Hn). reflexivity.
    + intros Hr.
      pose proof (resolve_issue_id_eq _ _ _ _ _ _ Hr He Hn) as Hres.
      simpl in Hres. split.
      * intros fields. unfold update, bind. rewrite Hres. reflexivity.
      * intros text. unfold add_comment, bind.
        change add_comment_query with update_query.
        rewrite Hres. reflexivity.
    + intros filters Hr.
      rewrite (list_tickets_eq _ _ _ _ _ Hr He Hn). reflexivity.
  - intros Hd Hr. unfold get, bind. rewrite graphql_request_eq.
    fold (search_request self get_query ticket_id).
    rewrite Hr. simpl decode. rewrite (check_errors_clean body He).
    unfold lift, search_nodes. simpl. rewrite Hd. reflexivity.
Qed.


(** *** get, further *)

Lemma get_loop_Ok ticket_id nodes (t : ticket) :
  get_loop ticket_id nodes = Ok t ->
  exists node, node ∈ nodes /\ has_identifier ticket_id node /\
               _parse_ticket node = Ok t.
Proof.
  induction nodes as [|n nodes IH]; simpl; [discriminate|].
  destruct n; simpl; try discriminate.
  destruct (py_eq_str _ ticket_id) eqn:E.
  - intros H. apply identifier_test in E. exists (JObj m).
    split; [apply list_elem_of_here|]. split; [exists m; auto | exact H].
  - intros H. destruct (IH H) as (node & Hin & Hid & Hp).
    exists node. split; [apply list_elem_of_further, Hin | auto].
Qed.

(** X25. The record [get] returns is the record of the ticket asked for:
    its identifier is [ticket_id]. And [get] does return a record when
    the first node of the response whose identifier is [ticket_id] is a
    well-formed issue. *)
Theorem get_returns_requested self ticket_id sent :
  (forall t, fst (get self ticket_id sent) = Ok t ->
     TicketRecord.id t = JStr ticket_id) /\
  (forall (body : gmap string json) pre (issue : gmap string json) post,
     remote sent (search_request self get_query ticket_id)
       = HttpOk (JObj body) ->
     body !! "errors" = None ->
     search_nodes (JObj body) = Ok (JList (pre ++ JObj issue :: post)) ->
     Forall is_dict pre ->
     Forall (fun n => ~ has_identifier ticket_id n) pre ->
     issue !! "identifier" = Some (JStr ticket_id) ->
     well_formed_issue fromisoformat issue ->
     exists t, fst (get self ticket_id sent) = Ok t).
Proof.
  split.
  - intros t. unfold get, bind. rewrite graphql_request_eq.
    destruct (decode _) as [result|e]; simpl; [|discriminate].
    destruct (search_nodes result) as [nodes_v|e]; simpl; [|discriminate].
    destruct (py_iter nodes_v) as [nodes|e]; simpl; [|discriminate].
    intros H. apply get_loop_Ok in H as (node & _ & (m & -> & Hm) & Hp).
    apply parse_ticket_Ok in Hp
      as (priority & label_nodes & labels & created_at & modified_at
          & status & project & assignee & _ & _ & _ & _ & _ & _ & _ & _
          & ->).
    simpl. rewrite Hm. reflexivity.
  - intros body pre issue post Hr He Hn Hd Hno Hid Hwf.
    rewrite (get_eq _ _ _ _ _ Hr He Hn). simpl.
    rewrite get_loop_first; [|assumption|assumption|exists issue; auto].
    apply parse_ticket_well_formed, Hwf.
Qed.

(** *** update, further *)

Lemma lookup_copy_field_Some fields caller remote' k v
    (input : gmap string json) :
  copy_field fields caller remote' input !! k = Some v ->
  (k = remote' /\ fields !! caller = Some v) \/ input !! k = Some v.
Proof using Type.
  unfold copy_field. destruct (fields !! caller) as [w|] eqn:E; [|auto].
  intros H. apply lookup_insert_Some in H as [[<- <-] | [_ H]]; auto.
Qed.

(** X26. The update input holds nothing but recognized fields: every
    entry of it stands under a remote name and holds the value the caller
    gave for the field of that name. *)
Theorem update_input_only_recognized (fields : gmap string json) remote' v :
  update_issue_input fields !! remote' = Some v ->
  exists caller,
    (caller, remote') ∈ field_names /\ fields !! caller = Some v.
Proof using Type.
  unfold update_issue_input, field_names. intros H.
  repeat (apply lookup_copy_field_Some in H as [[-> H'] | H];
          [eexists; split; [|exact H']; rewrite !elem_of_cons; auto 10 |]).
  rewrite lookup_empty in H. discriminate H.
Qed.

(** *** The adapter object *)

(** X27. An adapter keeps the state mapping it is built with; built with
    no mapping, it has the empty one and resolves no token but those the
    pattern accepts. *)
Theorem init_state_mapping api_key' team_id' :
  (forall mapping,
     state_mapping (init api_key' team_id' (Some mapping)) = mapping) /\
  (forall status, re_match_uuid status = false ->
     exists e,
       _resolve_state_id (init api_key' team_id' None) status = Raise e).
Proof using Type.
  split.
  - intros mapping. simpl.
    destruct (Nat.eqb (size mapping) 0) eqn:E; [|reflexivity].
    apply Nat.eqb_eq, map_size_empty_inv in E. congruence.
  - intros status H. unfold _resolve_state_id. rewrite H. simpl.
    rewrite lookup_empty. eexists. reflexivity.
Qed.

End Adapter.

(** ** The theorems at concrete inputs *)

Lemma parse_ticket_priority_witness :
  _parse_ticket string keep_text (JObj (sample_issue "Backlog"))
    = Ok (sample_ticket "Backlog") /\
  TicketRecord.priority (sample_ticket "Backlog") = HIGH.
Proof.
  assert (H : _parse_ticket string keep_text (JObj (sample_issue "Backlog"))
              = Ok (sample_ticket "Backlog"))
    by (vm_compute; reflexivity).
  split; [exact H|].
  apply (parse_ticket_priority string keep_text (sample_issue "Backlog")
           (sample_ticket "Backlog") H).
  vm_compute. reflexivity.
Defined.

Lemma graphql_errors_joined_witness :
  fst (_graphql_request no_str
         (replay [HttpOk (JObj (errors_body ["Authentication failed";
                                             "Invalid query"]))])
         sample_self get_query None [])
  = Raise (Exception
             "Linear GraphQL error: Authentication failed; Invalid query").
Proof.
  apply (graphql_errors_joined no_str _ sample_self get_query None []
           (errors_body ["Authentication failed"; "Invalid query"])
           (error_entry <$> ["Authentication failed"; "Invalid query"])
           ["Authentication failed"; "Invalid query"]).
  - reflexivity.
  - vm_compute. reflexivity.
  - repeat constructor; eexists; (split; [reflexivity|]);
      vm_compute; reflexivity.
Defined.

Lemma other_node_differs : ~ has_identifier "DBC-123" other_node.
Proof.
  intros (m & [= <-] & Hm). vm_compute in Hm. discriminate Hm.
Qed.

Lemma get_first_exact_match_witness :
  fst (get string keep_text no_str
         (replay [HttpOk (search_response [other_node; sample_node "Backlog"])])
         sample_self "DBC-123" [])
  = _parse_ticket string keep_text (sample_node "Backlog").
Proof.
  refine (proj1 (get_first_exact_match string keep_text no_str
                   (replay [HttpOk (search_response
                                      [other_node; sample_node "Backlog"])])
                   sample_self "DBC-123" []
                   (search_body [other_node; sample_node "Backlog"])
                   [other_node; sample_node "Backlog"] _ _ _ _)
            [other_node] (sample_node "Backlog") [] _ _ _).
  - reflexivity.
  - vm_compute. reflexivity.
  - vm_compute. reflexivity.
  - repeat constructor; eexists; reflexivity.
  - reflexivity.
  - repeat constructor. exact other_node_differs.
  - eexists. split; [reflexivity|]. vm_compute. reflexivity.
Defined.

Lemma list_tickets_search_witness :
  fst (list_tickets string keep_text no_str
         (replay [HttpOk (search_response [sample_node "In Progress"])])
         sample_self
         {[ "status" := "in_progress"; "assignee" := "john" ]} [])
  = Ok [sample_ticket "In Progress"].
Proof.
  apply (proj2 (list_tickets_search string keep_text no_str
                  (replay [HttpOk (search_response
                                     [sample_node "In Progress"])])
                  sample_self
                  {[ "status" := "in_progress"; "assignee" := "john" ]} [])
           (search_body [sample_node "In Progress"])
           [sample_node "In Progress"]).
  - reflexivity.
  - vm_compute. reflexivity.
  - vm_compute. reflexivity.
  - repeat constructor.
Defined.

Lemma update_maps_fields_witness :
  exists input,
    snd (update no_str
           (replay [HttpOk (search_response [sample_node "Backlog"]);
                    HttpOk (success_response "issueUpdate")])
           sample_self "DBC-123"
           {[ "title" := JStr "X"; "priority" := JInt 1 ]} [])
    = [search_request sample_self update_query "DBC-123";
       build_request sample_self update_mutation
         (Some {[ "id" := JStr "issue-uuid"; "input" := JObj input ]})] /\
    input !! "title" = Some (JStr "X") /\
    input !! "priority" = Some (JInt 1).
Proof.
  destruct (update_maps_fields no_str
              (replay [HttpOk (search_response [sample_node "Backlog"]);
                       HttpOk (success_response "issueUpdate")])
              sample_self "DBC-123"
              {[ "title" := JStr "X"; "priority" := JInt 1 ]} []
              (JStr "issue-uuid")
              [search_request sample_self update_query "DBC-123"])
    as (input & Htrace & Hmap).
  - vm_compute. reflexivity.
  - exists input. split; [exact Htrace|]. split.
    + apply (Hmap "title" "title").
      * apply (bool_decide_unpack _). vm_compute. exact I.
      * vm_compute. reflexivity.
    + apply (Hmap "priority" "priority").
      * apply (bool_decide_unpack _). vm_compute. exact I.
      * vm_compute. reflexivity.
Defined.

Lemma extra_fields_create_update_witness :
  (exists req input,
      snd (create no_str (replay [])
             sample_self "New ticket" None None None None None
             {[ "stateId" := JStr "state-uuid" ]} []) = [req] /\
      sent_input req = Some input /\
      input !! "stateId" = Some (JStr "state-uuid")) /\
  update no_str (replay []) sample_self "DBC-123"
    (<["estimate" := JInt 3]> {[ "title" := JStr "X" ]})
  = update no_str (replay []) sample_self "DBC-123" {[ "title" := JStr "X" ]}.
Proof.
  destruct (extra_fields_create_update no_str (replay []) sample_self)
    as [Hcreate Hupdate].
  split.
  - apply (Hcreate "New ticket" None None None None None
             {[ "stateId" := JStr "state-uuid" ]} [] "stateId"
             (JStr "state-uuid")).
    + vm_compute. reflexivity.
    + discriminate.
  - apply Hupdate.
    apply (bool_decide_unpack _). vm_compute. exact I.
Defined.

Lemma create_omits_falsy_witness :
  create no_str (replay []) sample_self "New ticket" (Some "desc") None
    None (Some 0) None {[ "assigneeId" := JNull ]}
  = create no_str (replay []) sample_self "New ticket" (Some "desc") None
      None (Some 0) None (delete "assigneeId" {[ "assigneeId" := JNull ]}) /\
  (exists req input,
      snd (create no_str (replay []) sample_self "New ticket" (Some "desc")
             None None (Some 0) None {[ "assigneeId" := JNull ]} [])
      = [req] /\
      sent_input req = Some input /\
      input !! "priority" = Some (JInt 0)) /\
  (exists req input,
      snd (create no_str (replay []) sample_self "New ticket" (Some "")
             None (Some "") (Some 0) (Some [])
             {[ "assigneeId" := JNull ]} [])
      = [req] /\
      sent_input req = Some input /\
      input !! "description" = None /\
      input !! "projectId" = None /\
      input !! "labelIds" = None /\
      input !! "assigneeId" = None).
Proof.
  destruct (create_omits_falsy no_str (replay []) sample_self "New ticket"
              (Some "desc") None None (Some 0) None
              {[ "assigneeId" := JNull ]})
    as (_ & _ & _ & Hnone & Hpriority & _).
  split; [|split].
  - apply Hnone. vm_compute. reflexivity.
  - apply (Hpriority ltac:(vm_compute; reflexivity) []).
  - destruct (create_omits_falsy no_str (replay []) sample_self
                "New ticket" (Some "") None (Some "") (Some 0) (Some [])
                {[ "assigneeId" := JNull ]})
      as (_ & _ & _ & _ & _ & Habsent).
    destruct (Habsent []) as (req & input & Hsent & Hinput & Hd & Hp & Hl
                              & Hk).
    exists req, input. split; [exact Hsent|]. split; [exact Hinput|].
    split; [apply Hd; [vm_compute; reflexivity | right; reflexivity]|].
    split; [apply Hp; [vm_compute; reflexivity | right; reflexivity]|].
    split; [apply Hl; [vm_compute; reflexivity | right; reflexivity]|].
    apply Hk; [|vm_compute; reflexivity].
    apply (bool_decide_unpack _). vm_compute. exact I.
Defined.

Lemma transition_event_type_witness :
  fst (transition string keep_text no_str
         (replay (transition_script "blocked")) sample_self
         "DBC-123" "in_progress" None None [])
  = Ok (TransitionResult.mk "DBC-123" (JStr "blocked") "in_progress"
          "unblocked" None) /\
  TransitionResult.event_type
    (TransitionResult.mk "DBC-123" (JStr "blocked") "in_progress"
       "unblocked" None)
  = "unblocked".
Proof.
  assert (H : transition string keep_text no_str
                (replay (transition_script "blocked")) sample_self
                "DBC-123" "in_progress" None None []
              = (Ok (TransitionResult.mk "DBC-123" (JStr "blocked")
                       "in_progress" "unblocked" None),
                 snd (transition string keep_text no_str
                        (replay (transition_script "blocked")) sample_self
                        "DBC-123" "in_progress" None None [])))
    by (vm_compute; reflexivity).
  split; [rewrite H; reflexivity|].
  destruct (transition_event_type string keep_text no_str
              (replay (transition_script "blocked")) sample_self
              "DBC-123" "in_progress" None None [] _ _ H)
    as (current & sent1 & Hget & Hprevious & Hblocked & Hother).
  destruct (Hother ltac:(discriminate) (or_introl eq_refl))
    as [Hunblocked _].
  apply Hunblocked. rewrite <- Hprevious. reflexivity.
Defined.

Lemma transition_note_comment_witness :
  exists updated_id,
    snd (transition string keep_text no_str
           (replay (transition_script "Backlog")) sample_self
           "DBC-123" "in_progress" (Some "go") None [])
    = [search_request sample_self get_query "DBC-123";
       search_request sample_self update_query "DBC-123";
       build_request sample_self update_mutation
         (Some {[ "id" := updated_id;
                  "input" :=
                    JObj {[ "stateId" :=
                              JStr "77631f63-b27b-45a5-8b04-f9f82b4facde" ]} ]});
       search_request sample_self add_comment_query "DBC-123";
       build_request sample_self add_comment_mutation
         (Some {[ "input" :=
                    JObj {[ "issueId" := JStr "issue-uuid";
                            "body" := JStr "go" ]} ]})].
Proof.
  apply (transition_note_comment string keep_text no_str
           (replay (transition_script "Backlog")) sample_self
           "DBC-123" "in_progress" "go" None []
           (sample_ticket "Backlog")
           [search_request sample_self get_query "DBC-123"]
           "77631f63-b27b-45a5-8b04-f9f82b4facde"
           (snd (update no_str (replay (transition_script "Backlog"))
                   sample_self "DBC-123"
                   {[ "state_id" :=
                        JStr "77631f63-b27b-45a5-8b04-f9f82b4facde" ]}
                   [search_request sample_self get_query "DBC-123"]))
           (JStr "issue-uuid")
           (snd (resolve_issue_id no_str
                   (replay (transition_script "Backlog")) sample_self
                   add_comment_query "DBC-123"
                   (snd (update no_str (replay (transition_script "Backlog"))
                           sample_self "DBC-123"
                           {[ "state_id" :=
                                JStr "77631f63-b27b-45a5-8b04-f9f82b4facde" ]}
                           [search_request sample_self get_query
                              "DBC-123"]))))).
  - discriminate.
  - vm_compute. reflexivity.
  - vm_compute. reflexivity.
  - vm_compute. reflexivity.
  - vm_compute. reflexivity.
Defined.

(** ** Where the code departs from the claims as stated *)

(** C1 as stated fails: with an empty blocking-ticket list supplied, the
    transition from "Backlog" to "in_progress" is a plain status change,
    where the claim classifies it as blocked. *)
Lemma transition_empty_blocked_by :
  exists tr sent',
    transition string keep_text no_str
      (replay (transition_script "Backlog")) sample_self
      "DBC-123" "in_progress" None (Some []) [] = (Ok tr, sent') /\
    TransitionResult.event_type tr = "status_changed" /\
    spec_event_type (TransitionResult.previous_status tr) "in_progress"
      (Some []) = "blocked".
Proof.
  eexists _, _. split; [vm_compute; reflexivity|].
  split; vm_compute; reflexivity.
Qed.

(** C4 as stated fails for [update]: the field [estimate], which is none
    of the recognized names, is supplied, the update succeeds, and the
    input of its mutation is empty. *)
Lemma update_drops_extra_field :
  exists sent',
    update no_str
      (replay [HttpOk (search_response [sample_node "Backlog"]);
               HttpOk (success_response "issueUpdate")])
      sample_self "DBC-123" {[ "estimate" := JInt 3 ]} [] = (Ok tt, sent') /\
    sent_query <$> sent' = [Some update_query; Some update_mutation] /\
    (sent_input <$> sent' !! 1%nat) = Some (Some ∅).
Proof.
  eexists. split; [vm_compute; reflexivity|].
  split; vm_compute; reflexivity.
Qed.

(** C8 as stated fails: a transition given the empty note succeeds with
    three requests, the search of [get] and the search and the mutation of
    [update]; no comment-creation mutation is among them. *)
Lemma transition_empty_note :
  exists tr sent',
    transition string keep_text no_str
      (replay (transition_script "Backlog")) sample_self
      "DBC-123" "in_progress" (Some "") None [] = (Ok tr, sent') /\
    sent_query <$> sent'
    = [Some get_query; Some update_query; Some update_mutation] /\
    Forall (fun q => q <> Some add_comment_mutation) (sent_query <$> sent').
Proof.
  eexists _, _. split; [vm_compute; reflexivity|].
  split; [vm_compute; reflexivity|].
  apply (bool_decide_unpack _). vm_compute. exact I.
Qed.

(** The token with its newline runs through a whole transition: it is
    sent to the remote as the state of the ticket. *)
Lemma transition_sends_newline_state :
  exists sent',
    snd (transition string keep_text no_str
           (replay (transition_script "Backlog")) (init "k" "" None)
           "DBC-123" uuid_nl None None []) = sent' /\
    (sent_input <$> sent' !! 2%nat)
    = Some (Some {[ "stateId" := JStr uuid_nl ]}).
Proof. eexists. split; [reflexivity|]. vm_compute. reflexivity. Qed.

(** ** The further properties at concrete inputs *)

Lemma sample_uuid_shaped : uuid_shaped sample_uuid.
Proof. split; [reflexivity|]. repeat constructor. Qed.

Lemma resolve_state_id_pattern_witness :
  re_match_uuid (sample_uuid ++ newline) = true.
Proof.
  apply (proj2 (resolve_state_id_pattern (sample_uuid ++ newline))).
  right. exists sample_uuid. split; [reflexivity|].
  exact sample_uuid_shaped.
Defined.

Lemma resolve_state_id_outcome_witness :
  _resolve_state_id sample_self sample_uuid = Ok sample_uuid /\
  _resolve_state_id sample_self "unknown_status"
  = Raise (ValueError ("Status 'unknown_status' not found in "
                         ++ "state_mapping and is not a UUID")).
Proof.
  split.
  - apply (proj1 (resolve_state_id_outcome sample_self sample_uuid)).
    exact sample_uuid_shaped.
  - apply (proj2 (proj2 (resolve_state_id_outcome sample_self
                           "unknown_status"))).
    split; [vm_compute; reflexivity|].
    split; [vm_compute; reflexivity|]. reflexivity.
Defined.

Lemma build_request_payload_witness :
  sent_variables
    (build_request sample_self get_query
       (Some {[ "query" := JStr "DBC-123" ]}))
  = Some {[ "query" := JStr "DBC-123" ]}.
Proof.
  apply (proj1 (proj2 (build_request_payload sample_self get_query))).
  apply insert_non_empty.
Defined.

Lemma graphql_errors_fallback_witness :
  fst (_graphql_request no_str
         (replay [HttpOk (JObj {[ "errors" :=
                                    JList [error_entry "Not authorized";
                                           coded_entry] ]})])
         sample_self get_query None [])
  = Raise (Exception "Linear GraphQL error: Not authorized; ").
Proof.
  apply (graphql_errors_fallback no_str _ sample_self get_query None []
           {[ "errors" := JList [error_entry "Not authorized"; coded_entry] ]}
           [error_entry "Not authorized"; coded_entry]
           ["Not authorized"; ""]).
  - reflexivity.
  - vm_compute. reflexivity.
  - constructor; [|constructor; [|constructor]].
    + eexists. split; [reflexivity|]. left. vm_compute. reflexivity.
    + eexists. split; [reflexivity|]. right.
      split; [vm_compute; reflexivity | reflexivity].
Defined.

Lemma graphql_errors_malformed_witness :
  fst (_graphql_request no_str
         (replay [HttpOk (JObj {[ "errors" := JNull ]})])
         sample_self get_query None []) = Raise TypeError /\
  fst (_graphql_request no_str
         (replay [HttpOk (JObj {[ "errors" := JList [JStr "boom"] ]})])
         sample_self get_query None []) = Raise AttributeError /\
  fst (_graphql_request no_str
         (replay [HttpOk (JObj {[ "errors" :=
                                    JList [JObj {[ "message" := JInt 7 ]}] ]})])
         sample_self get_query None []) = Raise TypeError.
Proof.
  split; [|split].
  - apply (proj1 (graphql_errors_malformed no_str _ sample_self get_query
                    None [] {[ "errors" := JNull ]} eq_refl) JNull).
    + vm_compute. reflexivity.
    + left. reflexivity.
  - apply (proj1 (proj2 (graphql_errors_malformed no_str _ sample_self
                           get_query None []
                           {[ "errors" := JList [JStr "boom"] ]} eq_refl))
             [] (JStr "boom") []).
    + vm_compute. reflexivity.
    + constructor.
    + intros [m Hm]. discriminate Hm.
  - apply (proj2 (proj2 (graphql_errors_malformed no_str _ sample_self
                           get_query None []
                           {[ "errors" :=
                                JList [JObj {[ "message" := JInt 7 ]}] ]}
                           eq_refl))
             [] [] {[ "message" := JInt 7 ]} (JInt 7) []).
    + vm_compute. reflexivity.
    + constructor.
    + vm_compute. reflexivity.
    + discriminate.
    + constructor.
Defined.

Lemma request_failure_aborts_witness :
  get string keep_text no_str (replay [HTTPError 500 None]) sample_self
    "DBC-123" []
  = (Raise (Exception "Linear API HTTP error 500: No error body"),
     [search_request sample_self get_query "DBC-123"]) /\
  update no_str (replay [URLError "timed out"]) sample_self "DBC-123"
    {[ "title" := JStr "X" ]} []
  = (Raise (Exception "Linear API network error: timed out"),
     [search_request sample_self update_query "DBC-123"]).
Proof.
  split.
  - apply (proj1 (request_failure_aborts string keep_text no_str
                    (replay [HTTPError 500 None]) sample_self "DBC-123" []
                    (Exception "Linear API HTTP error 500: No error body"))).
    vm_compute. reflexivity.
  - apply (proj2 (request_failure_aborts string keep_text no_str
                    (replay [URLError "timed out"]) sample_self "DBC-123" []
                    (Exception "Linear API network error: timed out"))).
    vm_compute. reflexivity.
Defined.

Lemma update_resolves_first_match_witness :
  update no_str
    (replay [HttpOk (search_response
                       [other_node; JObj idless_issue;
                        sample_node "Backlog"])])
    sample_self "DBC-123" {[ "title" := JStr "X" ]} []
  = (Raise (not_found "DBC-123"),
     [search_request sample_self update_query "DBC-123"]).
Proof.
  refine (proj1 (proj2 (update_resolves_first_match no_str
                          (replay [HttpOk (search_response
                                             [other_node; JObj idless_issue;
                                              sample_node "Backlog"])])
                          sample_self "DBC-123" {[ "title" := JStr "X" ]} []
                          (search_body [other_node; JObj idless_issue;
                                        sample_node "Backlog"])
                          [other_node; JObj idless_issue;
                           sample_node "Backlog"] _ _ _ _)
                   [other_node] idless_issue [sample_node "Backlog"]
                   _ _ _) _).
  - reflexivity.
  - vm_compute. reflexivity.
  - vm_compute. reflexivity.
  - repeat constructor; eexists; reflexivity.
  - reflexivity.
  - repeat constructor. exact other_node_differs.
  - vm_compute. reflexivity.
  - vm_compute. reflexivity.
Defined.

Lemma update_success_flag_witness :
  fst (update no_str
         (replay [HttpOk (search_response [sample_node "Backlog"]);
                  HttpOk (JObj (answer_body "issueUpdate"
                                  {[ "success" := JBool false ]}))])
         sample_self "DBC-123" {[ "title" := JStr "X" ]} [])
  = Raise (Exception "Failed to update ticket DBC-123").
Proof.
  refine (eq_trans (proj1 (update_success_flag no_str
                  (replay [HttpOk (search_response [sample_node "Backlog"]);
                           HttpOk (JObj (answer_body "issueUpdate"
                                           {[ "success" := JBool false ]}))])
                  sample_self "DBC-123" {[ "title" := JStr "X" ]} []
                  (JStr "issue-uuid")
                  [search_request sample_self update_query "DBC-123"]
                  (answer_body "issueUpdate" {[ "success" := JBool false ]})
                  ltac:(vm_compute; reflexivity) eq_refl
                  ltac:(vm_compute; reflexivity))
           {[ "issueUpdate" := JObj {[ "success" := JBool false ]} ]}
           {[ "success" := JBool false ]} _ _) _).
  - vm_compute. reflexivity.
  - vm_compute. reflexivity.
  - vm_compute. reflexivity.
Defined.

Lemma add_comment_outcome_witness :
  fst (add_comment no_str
         (replay [HttpOk (search_response [sample_node "Backlog"]);
                  HttpOk (JObj (answer_body "commentCreate"
                                  {[ "success" := JBool true ]}))])
         sample_self "DBC-123" "Looks good" [])
  = Ok tt.
Proof.
  refine (eq_trans (proj2 (add_comment_outcome no_str
                  (replay [HttpOk (search_response [sample_node "Backlog"]);
                           HttpOk (JObj (answer_body "commentCreate"
                                           {[ "success" := JBool true ]}))])
                  sample_self "DBC-123" "Looks good" []
                  (JStr "issue-uuid")
                  [search_request sample_self add_comment_query "DBC-123"]
                  ltac:(vm_compute; reflexivity))
           (answer_body "commentCreate" {[ "success" := JBool true ]})
           {[ "commentCreate" := JObj {[ "success" := JBool true ]} ]}
           {[ "success" := JBool true ]} _ _ _ _) _).
  - reflexivity.
  - vm_compute. reflexivity.
  - vm_compute. reflexivity.
  - vm_compute. reflexivity.
  - vm_compute. reflexivity.
Defined.

Lemma create_returns_identifier_witness :
  fst (create no_str
         (replay [HttpOk (JObj (answer_body "issueCreate"
                                  {[ "success" := JBool true;
                                     "issue" :=
                                       JObj {[ "id" := JStr "new-uuid" ]} ]}))])
         sample_self "New ticket" None None None (Some 2) None ∅ [])
  = Ok (JStr "new-uuid").
Proof.
  refine (eq_trans (proj2 (proj2 (create_returns_identifier no_str
                          (replay [HttpOk (JObj (answer_body "issueCreate"
                                     {[ "success" := JBool true;
                                        "issue" :=
                                          JObj {[ "id" := JStr "new-uuid" ]} ]}))])
                          sample_self "New ticket" None None None (Some 2)
                          None ∅ []
                          (answer_body "issueCreate"
                             {[ "success" := JBool true;
                                "issue" := JObj {[ "id" := JStr "new-uuid" ]} ]})
                          {[ "issueCreate" :=
                               JObj {[ "success" := JBool true;
                                       "issue" :=
                                         JObj {[ "id" := JStr "new-uuid" ]} ]} ]}
                          {[ "success" := JBool true;
                             "issue" := JObj {[ "id" := JStr "new-uuid" ]} ]}
                          _ _ _ _) _)
            {[ "id" := JStr "new-uuid" ]} _) _).
  - reflexivity.
  - vm_compute. reflexivity.
  - vm_compute. reflexivity.
  - vm_compute. reflexivity.
  - vm_compute. reflexivity.
  - vm_compute. reflexivity.
  - vm_compute. reflexivity.
Defined.

Lemma create_input_fields_witness :
  create_issue_input sample_self "New ticket" (Some "Details") None None
    None (Some ["label-1"; "label-2"]) {[ "stateId" := JStr "state-uuid" ]}
    !! "labelIds"
  = Some (JList [JStr "label-1"; JStr "label-2"]).
Proof.
  refine (proj2 (proj2 (proj2 (proj2 (proj2
            (proj1 (create_input_fields sample_self "New ticket"
                      (Some "Details") None None None
                      (Some ["label-1"; "label-2"])
                      {[ "stateId" := JStr "state-uuid" ]}) _)))))
            ["label-1"; "label-2"] eq_refl _).
  - intros k Hk. unfold create_names in Hk.
    repeat (apply elem_of_cons in Hk as [-> | Hk];
            [vm_compute; reflexivity|]).
    apply elem_of_nil in Hk. contradiction.
  - discriminate.
Defined.

Lemma transition_with_note_returns :
  transition string keep_text no_str (replay (transition_script "Backlog"))
    sample_self "DBC-123" "in_progress" (Some "go") None []
  = (Ok (TransitionResult.mk "DBC-123" (JStr "Backlog") "in_progress"
           "status_changed" None),
     snd (transition string keep_text no_str
            (replay (transition_script "Backlog")) sample_self "DBC-123"
            "in_progress" (Some "go") None [])).
Proof. vm_compute. reflexivity. Qed.

Lemma transition_requests_witness :
  exists new,
    snd (transition string keep_text no_str
           (replay (transition_script "Backlog")) sample_self "DBC-123"
           "in_progress" (Some "go") None []) = new /\
    sent_query <$> new
    = [Some get_query; Some update_query; Some update_mutation;
       Some add_comment_query; Some add_comment_mutation].
Proof.
  destruct (transition_requests string keep_text no_str
              (replay (transition_script "Backlog")) sample_self "DBC-123"
              "in_progress" (Some "go") None [] _ _
              transition_with_note_returns)
    as (new & Hsent & _ & Hfive).
  exists new. split; [exact Hsent|].
  apply (Hfive "go" eq_refl). discriminate.
Defined.

Lemma transition_result_fields_witness :
  TransitionResult.event_type
    (TransitionResult.mk "DBC-123" (JStr "Backlog") "in_progress"
       "status_changed" None) ∈ event_types.
Proof.
  apply (transition_result_fields string keep_text no_str
           (replay (transition_script "Backlog")) sample_self "DBC-123"
           "in_progress" (Some "go") None [] _ _
           transition_with_note_returns).
Defined.

Lemma transition_failure_order_witness :
  transition string keep_text no_str (replay (transition_script "Backlog"))
    sample_self "DBC-123" "unknown_status" None None []
  = (Raise (ValueError ("Status 'unknown_status' not found in "
                          ++ "state_mapping and is not a UUID")),
     [search_request sample_self get_query "DBC-123"]).
Proof.
  apply (proj2 (transition_failure_order string keep_text no_str
                  (replay (transition_script "Backlog")) sample_self
                  "DBC-123" "unknown_status" None None [])
           (sample_ticket "Backlog")).
  - vm_compute. reflexivity.
  - vm_compute. reflexivity.
Defined.

Lemma transition_comment_failure_witness :
  fst (transition string keep_text no_str
         (replay [HttpOk (search_response [sample_node "Backlog"]);
                  HttpOk (search_response [sample_node "Backlog"]);
                  HttpOk (success_response "issueUpdate");
                  HttpOk (search_response [])])
         sample_self "DBC-123" "in_progress" (Some "go") None [])
  = Raise (not_found "DBC-123").
Proof.
  refine (proj1 (transition_comment_failure string keep_text no_str
                   (replay [HttpOk (search_response [sample_node "Backlog"]);
                            HttpOk (search_response [sample_node "Backlog"]);
                            HttpOk (success_response "issueUpdate");
                            HttpOk (search_response [])])
                   sample_self "DBC-123" "in_progress" "go" None []
                   (sample_ticket "Backlog")
                   [search_request sample_self get_query "DBC-123"]
                   sample_uuid
                   (snd (update no_str
                           (replay [HttpOk (search_response
                                              [sample_node "Backlog"]);
                                    HttpOk (search_response
                                              [sample_node "Backlog"]);
                                    HttpOk (success_response "issueUpdate");
                                    HttpOk (search_response [])])
                           sample_self "DBC-123"
                           {[ "state_id" := JStr sample_uuid ]}
                           [search_request sample_self get_query
                              "DBC-123"]))
                   (not_found "DBC-123") _ _ _ _ _)).
  - discriminate.
  - vm_compute. reflexivity.
  - vm_compute. reflexivity.
  - vm_compute. reflexivity.
  - vm_compute. reflexivity.
Defined.

Lemma sample_issue_parsed state :
  _parse_ticket string keep_text (JObj (sample_issue state))
  = Ok (sample_ticket state).
Proof. reflexivity. Qed.

Lemma parse_ticket_identity_witness :
  TicketRecord.id (sample_ticket "Backlog") = JStr "DBC-123".
Proof.
  apply (proj1 (parse_ticket_identity string keep_text
                  (sample_issue "Backlog") (sample_ticket "Backlog")
                  (sample_issue_parsed "Backlog"))).
  vm_compute. reflexivity.
Defined.

Lemma parse_ticket_labels_witness :
  Forall2 has_name [JObj {[ "name" := JStr "bug" ]}]
    (TicketRecord.labels (sample_ticket "Backlog")) /\
  _parse_ticket string keep_text (JObj nameless_issue)
  = Raise (KeyError "name").
Proof.
  split.
  - apply (proj2 (proj1 (parse_ticket_labels string keep_text
                           (sample_issue "Backlog"))
                    (sample_ticket "Backlog")
                    (sample_issue_parsed "Backlog"))
             {[ "nodes" := JList [JObj {[ "name" := JStr "bug" ]}] ]}).
    + vm_compute. reflexivity.
    + vm_compute. reflexivity.
  - apply (proj2 (parse_ticket_labels string keep_text nameless_issue)
             NONE {[ "nodes" := JList [JObj ∅] ]} [] ∅ []).
    + vm_compute. reflexivity.
    + vm_compute. reflexivity.
    + vm_compute. reflexivity.
    + constructor.
    + reflexivity.
Defined.

Lemma parse_ticket_optional_names_witness :
  TicketRecord.project (sample_ticket "Backlog") = JNull.
Proof.
  apply (proj1 (parse_ticket_optional_names string keep_text
                  (sample_issue "Backlog") (sample_ticket "Backlog")
                  (sample_issue_parsed "Backlog"))).
  vm_compute. reflexivity.
Defined.

Lemma parse_ticket_timestamps_witness :
  exists d,
    keep_text ("2024-01-01T00:00:00" ++ "+00:00") = inr d /\
    TicketRecord.created_at (sample_ticket "Backlog") = Some d.
Proof.
  apply (proj1 (proj2 (proj2 (parse_ticket_timestamps string keep_text
                                (sample_issue "Backlog")
                                (sample_ticket "Backlog")
                                (sample_issue_parsed "Backlog"))))
           "2024-01-01T00:00:00").
  - vm_compute. reflexivity.
  - repeat constructor; discriminate.
Defined.

Lemma sample_issue_well_formed state :
  well_formed_issue keep_text (sample_issue state).
Proof.
  repeat split.
  - right. exists 2. reflexivity.
  - right. eexists. split; [reflexivity|]. right. eexists.
    split; [reflexivity|]. repeat constructor. eexists. eexists.
    split; reflexivity.
  - right. right. eexists. split; [reflexivity|]. right. eexists.
    reflexivity.
  - left. reflexivity.
  - right. eexists. reflexivity.
  - left. reflexivity.
  - left. reflexivity.
Qed.

Lemma parse_ticket_returns_witness :
  exists t, _parse_ticket string keep_text (JObj (sample_issue "Backlog"))
            = Ok t.
Proof.
  apply (parse_ticket_returns string keep_text (sample_issue "Backlog")).
  apply sample_issue_well_formed.
Defined.

Lemma list_tickets_all_or_nothing_witness :
  fst (list_tickets string keep_text no_str
         (replay [HttpOk (search_response [sample_node "Backlog";
                                           JObj nameless_issue])])
         sample_self {[ "status" := "Backlog" ]} [])
  = Raise (KeyError "name").
Proof.
  apply (list_tickets_all_or_nothing string keep_text no_str
           (replay [HttpOk (search_response [sample_node "Backlog";
                                             JObj nameless_issue])])
           sample_self {[ "status" := "Backlog" ]} []
           (search_body [sample_node "Backlog"; JObj nameless_issue])
           [sample_node "Backlog"] (JObj nameless_issue) []).
  - reflexivity.
  - vm_compute. reflexivity.
  - vm_compute. reflexivity.
  - repeat constructor. eexists. apply sample_issue_parsed.
  - vm_compute. reflexivity.
Defined.

Lemma list_tickets_filters_witness :
  list_tickets string keep_text no_str (replay []) sample_self
    (<["team" := "core"]> {[ "status" := "Backlog" ]})
  = list_tickets string keep_text no_str (replay []) sample_self
      {[ "status" := "Backlog" ]} /\
  search_query {[ "query" := "" ]} = "".
Proof.
  split.
  - apply (proj1 (list_tickets_filters string keep_text no_str (replay [])
                    sample_self {[ "status" := "Backlog" ]})).
    apply (bool_decide_unpack _). vm_compute. exact I.
  - apply (proj2 (proj2 (list_tickets_filters string keep_text no_str
                           (replay []) sample_self {[ "query" := "" ]})));
      vm_compute; reflexivity.
Defined.

Lemma missing_nodes_defaults_witness :
  fst (get string keep_text no_str (replay [HttpOk (JObj ∅)]) sample_self
         "DBC-999" [])
  = Raise (not_found "DBC-999") /\
  fst (list_tickets string keep_text no_str (replay [HttpOk (JObj ∅)])
         sample_self ∅ [])
  = Ok [].
Proof.
  destruct (proj1 (missing_nodes_defaults string keep_text no_str
                     (replay [HttpOk (JObj ∅)]) sample_self "DBC-999" [] ∅
                     (lookup_empty "errors"))
              (or_introl (lookup_empty "data")))
    as (Hget & _ & Hlist).
  split.
  - apply Hget. reflexivity.
  - apply Hlist. reflexivity.
Defined.

Lemma get_returns_requested_witness :
  (exists t,
      fst (get string keep_text no_str
             (replay [HttpOk (search_response
                                [other_node; sample_node "Backlog"])])
             sample_self "DBC-123" []) = Ok t) /\
  TicketRecord.id (sample_ticket "Backlog") = JStr "DBC-123".
Proof.
  destruct (get_returns_requested string keep_text no_str
              (replay [HttpOk (search_response
                                 [other_node; sample_node "Backlog"])])
              sample_self "DBC-123" []) as [Hid Hreturns].
  split.
  - apply (Hreturns (search_body [other_node; sample_node "Backlog"])
             [other_node] (sample_issue "Backlog") []).
    + reflexivity.
    + vm_compute. reflexivity.
    + vm_compute. reflexivity.
    + repeat constructor. eexists. reflexivity.
    + repeat constructor. exact other_node_differs.
    + vm_compute. reflexivity.
    + apply sample_issue_well_formed.
  - apply Hid. vm_compute. reflexivity.
Defined.

Lemma update_input_only_recognized_witness :
  exists caller,
    (caller, "labelIds") ∈ field_names /\
    ({[ "labels" := JList [JStr "label-1"]; "estimate" := JInt 3 ]}
       : gmap string json) !! caller = Some (JList [JStr "label-1"]).
Proof.
  apply (update_input_only_recognized
           {[ "labels" := JList [JStr "label-1"]; "estimate" := JInt 3 ]}
           "labelIds" (JList [JStr "label-1"])).
  vm_compute. reflexivity.
Defined.

Lemma init_state_mapping_witness :
  exists e,
    _resolve_state_id (init "test-api-key" "team-uuid" None) "in_progress"
    = Raise e.
Proof.
  apply (proj2 (init_state_mapping "test-api-key" "team-uuid")).
  vm_compute. reflexivity.
Defined.

Lemma operations_send_authorized_witness :
  sends_at_most sample_self 5
    (transition string keep_text no_str
       (replay (transition_script "Backlog")) sample_self "DBC-123"
       "in_progress" (Some "go") None).
Proof.
  apply (operations_send_authorized string keep_text no_str
           (replay (transition_script "Backlog")) sample_self).
Defined.
